(** * ipyhealth: the Apple Health record formatter and table builder

    A shallow embedding of [ipyhealth/parser.py]: the field formatters of
    [AppleHealthFormatter], its record formatter [format_values], the date
    filter of [AppleHealthParser] and its table builder [create_dataframe].

    Conventions of the embedding.
    - A Python [str] is a [string]; the string methods the formatters call
      ([lower], [strip], [split], [replace], ...) are written out for the
      ASCII repertoire, which is what attribute names, units and device
      labels of an export are made of.
    - A Python [float] is a binary64 [float] of the kernel, with its own
      division.
    - A [dict] is a [gmap]; a run that raises returns [Raise e].
    - The directory 'tmp' of an export, where the workers of the table
      builder leave their pickles, is a [store] that [create_dataframe]
      takes and gives back: it outlives a call.
    - The calls into other packages whose result is not computed here
      ([float] on text, [dateutil.parser.parse], [unicodedata.normalize],
      the argsort behind [DataFrame.sort_values]) are the fields of the class
      [Externals]; the template [activity_format.json] is an argument. *)

From Stdlib Require Import ZArith String Ascii List Lia Bool Floats Uint63.
From Stdlib Require Import Sorting.Permutation Sorting.Sorted.
From stdpp Require Import gmap strings pretty.
Import ListNotations.

Open Scope string_scope.
Open Scope list_scope.

(** ** Exceptions and results *)

Inductive exn :=
| KeyError
| IndexError
| ValueError
| TypeError
| NotImplementedError
| UnboundLocalError
| ZeroDivisionError
| FileNotFoundError.

Inductive result (A : Type) :=
| Ok (a : A)
| Raise (e : exn).

Arguments Ok {A} a.
Arguments Raise {A} e.

Definition bind {A B} (r : result A) (k : A -> result B) : result B :=
  match r with
  | Ok a => k a
  | Raise e => Raise e
  end.

Notation "'let!' x ':=' r 'in' k" := (bind r (fun x => k))
  (at level 10, x name, r at level 100, k at level 200).

Definition of_option {A} (e : exn) (o : option A) : result A :=
  match o with
  | Some a => Ok a
  | None => Raise e
  end.

(** [list(map(f, xs))]: every element is formatted, the first exception
    wins. *)
Fixpoint map_result {A B} (f : A -> result B) (xs : list A) : result (list B) :=
  match xs with
  | [] => Ok []
  | x :: xs' =>
      let! y := f x in
      let! ys := map_result f xs' in
      Ok (y :: ys)
  end.

(** ** Python strings *)

Module Str.

Definition code (c : ascii) : nat := nat_of_ascii c.

Definition between (lo hi : nat) (c : ascii) : bool :=
  (lo <=? code c)%nat && (code c <=? hi)%nat.

Definition is_upper : ascii -> bool := between 65 90.
Definition is_lower : ascii -> bool := between 97 122.
Definition is_digit : ascii -> bool := between 48 57.

(** [str.isspace] on ASCII: tab, newline, vertical tab, form feed,
    carriage return, the four separators 0x1c-0x1f and the space. *)
Definition is_space (c : ascii) : bool :=
  between 9 13 c || between 28 31 c || (code c =? 32)%nat.

Definition lower_char (c : ascii) : ascii :=
  if is_upper c then ascii_of_nat (code c + 32) else c.

Fixpoint lower (s : string) : string :=
  match s with
  | EmptyString => EmptyString
  | String c s' => String (lower_char c) (lower s')
  end.

Fixpoint mem (c : ascii) (chars : string) : bool :=
  match chars with
  | EmptyString => false
  | String d chars' => Ascii.eqb c d || mem c chars'
  end.

Fixpoint drop (n : nat) (s : string) : string :=
  match n, s with
  | O, _ => s
  | S n', String _ s' => drop n' s'
  | S _, EmptyString => EmptyString
  end.

Fixpoint take (n : nat) (s : string) : string :=
  match n, s with
  | S n', String c s' => String c (take n' s')
  | _, _ => EmptyString
  end.

Fixpoint startswith (p s : string) : bool :=
  match p, s with
  | EmptyString, _ => true
  | String a p', String b s' => Ascii.eqb a b && startswith p' s'
  | String _ _, EmptyString => false
  end.

(** [p in s] *)
Fixpoint contains (p s : string) : bool :=
  startswith p s ||
  match s with
  | EmptyString => false
  | String _ s' => contains p s'
  end.

Definition endswith (p s : string) : bool :=
  (String.length p <=? String.length s)%nat &&
  String.eqb (drop (String.length s - String.length p) s) p.

(** [lstrip(chars)], [rstrip(chars)] and [strip(chars)] for a predicate on
    characters. *)
Fixpoint lstrip (p : ascii -> bool) (s : string) : string :=
  match s with
  | EmptyString => EmptyString
  | String c s' => if p c then lstrip p s' else s
  end.

Fixpoint rstrip (p : ascii -> bool) (s : string) : string :=
  match s with
  | EmptyString => EmptyString
  | String c s' =>
      match rstrip p s' with
      | EmptyString => if p c then EmptyString else String c EmptyString
      | r => String c r
      end
  end.

Definition strip (p : ascii -> bool) (s : string) : string :=
  rstrip p (lstrip p s).

(** [s.split(sep)] for a separator of one character. *)
Fixpoint split (sep : ascii) (s : string) : list string :=
  match s with
  | EmptyString => [EmptyString]
  | String c s' =>
      if Ascii.eqb c sep then EmptyString :: split sep s'
      else match split sep s' with
           | [] => [String c EmptyString]
           | w :: ws => String c w :: ws
           end
  end.

(** [sep.join(parts)] *)
Fixpoint join (sep : string) (parts : list string) : string :=
  match parts with
  | [] => EmptyString
  | [p] => p
  | p :: ps => p +:+ sep +:+ join sep ps
  end.

(** [s.replace(old, new)] for a non-empty [old]: occurrences are replaced
    from the left and do not overlap. [skip] counts the characters of the
    occurrence being replaced that are still to be dropped. *)
Fixpoint replace_from (old new : string) (skip : nat) (s : string) : string :=
  match s with
  | EmptyString => EmptyString
  | String c s' =>
      match skip with
      | S k => replace_from old new k s'
      | O =>
          if startswith old s
          then new +:+ replace_from old new (String.length old - 1) s'
          else String c (replace_from old new 0 s')
      end
  end.

(** With an empty [old] Python puts [new] before every character and at the
    end. *)
Fixpoint interleave (new s : string) : string :=
  match s with
  | EmptyString => new
  | String c s' => new +:+ String c (interleave new s')
  end.

Definition replace (old new s : string) : string :=
  match old with
  | EmptyString => interleave new s
  | String _ _ => replace_from old new 0 s
  end.

End Str.

(** ** Regular expressions

    The fragment of Python's [re] the program uses: literal characters,
    [.], [\d], bracket classes, the greedy quantifiers [*], [+], [?] and
    [{n}] on one character, capturing groups, [^] and [$]. A compiled
    pattern is a flat list of items; a group is delimited by [IOpen] and
    [IClose]. Matching is by backtracking, leftmost first, as in [re]. *)

Module Re.

Inductive charset :=
| CLit (c : ascii)
| CAny                       (* [.]: any character but a newline *)
| CDigit                     (* [\d] *)
| CRange (lo hi : ascii)     (* [lo-hi] in a bracket class *)
| CUnion (a b : charset).    (* the members of one bracket class *)

Fixpoint charset_mem (cs : charset) (c : ascii) : bool :=
  match cs with
  | CLit d => Ascii.eqb c d
  | CAny => negb (Str.code c =? 10)%nat
  | CDigit => Str.is_digit c
  | CRange lo hi => Str.between (Str.code lo) (Str.code hi) c
  | CUnion a b => charset_mem a c || charset_mem b c
  end.

Inductive item :=
| IChar (cs : charset)
| IStar (cs : charset)
| IPlus (cs : charset)
| IOpt (cs : charset)
| IBol
| IEol
| IOpen (g : nat)
| IClose (g : nat).

Record regex := { items : list item; groups : nat }.

(** What the matcher knows of the groups: where each opened group started
    (position and the text from there on) and the text of each closed one. *)
Record captures := {
  opened : list (nat * (nat * string));
  closed : list (nat * string)
}.

Definition no_captures : captures := {| opened := []; closed := [] |}.

Fixpoint assoc {A} (g : nat) (l : list (nat * A)) : option A :=
  match l with
  | [] => None
  | (h, a) :: l' => if (g =? h)%nat then Some a else assoc g l'
  end.

Definition open_group (g pos : nat) (s : string) (cp : captures) : captures :=
  {| opened := (g, (pos, s)) :: opened cp; closed := closed cp |}.

Definition close_group (g pos : nat) (cp : captures) : captures :=
  match assoc g (opened cp) with
  | Some (p0, s0) =>
      {| opened := opened cp; closed := (g, Str.take (pos - p0) s0) :: closed cp |}
  | None => cp
  end.

(** The length of the longest prefix of [s] made of characters of [cs]. *)
Fixpoint span (cs : charset) (s : string) : nat :=
  match s with
  | EmptyString => 0
  | String c s' => if charset_mem cs c then S (span cs s') else 0
  end.

(** A greedy quantifier: try [n] repetitions, then [n - 1], ... down to
    [lo]. *)
Fixpoint greedy {A} (try : nat -> option A) (lo n : nat) : option A :=
  if (n <? lo)%nat then None
  else match try n with
       | Some r => Some r
       | None =>
           match n with
           | O => None
           | S n' => greedy try lo n'
           end
       end.

(** [$] matches at the end of the text and before a final newline. *)
Definition at_end (s : string) : bool :=
  match s with
  | EmptyString => true
  | String c EmptyString => (Str.code c =? 10)%nat
  | _ => false
  end.

(** Match the items at position [pos], where the text still to read is [s].
    [start] is where the attempt began; with [must_advance] an empty match
    there is refused (the scan resumes after an empty match). *)
Fixpoint match_items (start : nat) (must_advance : bool) (its : list item)
    (pos : nat) (s : string) (cp : captures) : option (nat * captures) :=
  match its with
  | [] =>
      if must_advance && (pos =? start)%nat then None else Some (pos, cp)
  | IChar cs :: r =>
      match s with
      | String c s' =>
          if charset_mem cs c
          then match_items start must_advance r (S pos) s' cp
          else None
      | EmptyString => None
      end
  | IStar cs :: r =>
      greedy (fun n => match_items start must_advance r (pos + n) (Str.drop n s) cp)
        0 (span cs s)
  | IPlus cs :: r =>
      greedy (fun n => match_items start must_advance r (pos + n) (Str.drop n s) cp)
        1 (span cs s)
  | IOpt cs :: r =>
      greedy (fun n => match_items start must_advance r (pos + n) (Str.drop n s) cp)
        0 (Nat.min 1 (span cs s))
  | IBol :: r =>
      if (pos =? 0)%nat then match_items start must_advance r pos s cp else None
  | IEol :: r =>
      if at_end s then match_items start must_advance r pos s cp else None
  | IOpen g :: r => match_items start must_advance r pos s (open_group g pos s cp)
  | IClose g :: r => match_items start must_advance r pos s (close_group g pos cp)
  end.

(** A match object: its span, the matched text and the text of groups
    1, 2, ... (a group that did not take part is empty). *)
Record match_object := {
  m_start : nat;
  m_end : nat;
  m_text : string;
  m_groups : list string
}.

Definition group_texts (n : nat) (cp : captures) : list string :=
  map (fun g => match assoc g (closed cp) with Some t => t | None => EmptyString end)
      (seq 1 n).

(** The leftmost match starting at [pos] or later. *)
Fixpoint search_from (re : regex) (must_advance : bool) (pos : nat) (s : string)
  : option match_object :=
  match match_items pos must_advance (items re) pos s no_captures with
  | Some (e, cp) =>
      Some {| m_start := pos; m_end := e; m_text := Str.take (e - pos) s;
              m_groups := group_texts (groups re) cp |}
  | None =>
      match s with
      | EmptyString => None
      | String _ s' => search_from re false (S pos) s'
      end
  end.

(** [re.search(pattern, s)] *)
Definition search (re : regex) (s : string) : option match_object :=
  search_from re false 0 s.

(** [match.group(i)] *)
Definition group (m : match_object) (i : nat) : string :=
  match i with
  | O => m_text m
  | S j => nth j (m_groups m) EmptyString
  end.

(** The matches of [re.finditer]: the scan resumes where the last match
    ended, and after an empty match the next one must not be empty at the
    same place. Each round moves on or sets [must_advance], so
    [2 * length + 2] rounds are all there can be. *)
Fixpoint finditer_from (fuel : nat) (re : regex) (must_advance : bool)
    (pos : nat) (s : string) : list match_object :=
  match fuel with
  | O => []
  | S fuel' =>
      match search_from re must_advance pos s with
      | None => []
      | Some m =>
          m :: finditer_from fuel' re (m_end m =? m_start m)%nat (m_end m)
                 (Str.drop (m_end m - pos) s)
      end
  end.

Definition finditer (re : regex) (s : string) : list match_object :=
  finditer_from (2 * String.length s + 2) re false 0 s.

(** An element of [re.findall]'s list: the matched text when the pattern
    has no group, the group's text when it has one, a tuple of the groups'
    texts when it has more. *)
Inductive found :=
| FStr (s : string)
| FTuple (l : list string).

Definition found_of (re : regex) (m : match_object) : found :=
  match groups re with
  | 0 => FStr (m_text m)
  | 1 => FStr (group m 1)
  | _ => FTuple (m_groups m)
  end.

(** [re.findall(pattern, s)] *)
Definition findall (re : regex) (s : string) : list found :=
  map (found_of re) (finditer re s).

(** A replacement template such as [r'\1_\2']. *)
Inductive template_part :=
| TLit (s : string)
| TGroup (g : nat).

Definition expand (tpl : list template_part) (m : match_object) : string :=
  fold_right (fun p acc =>
                match p with
                | TLit t => t +:+ acc
                | TGroup g => group m g +:+ acc
                end) EmptyString tpl.

Fixpoint sub_from (tpl : list template_part) (pos : nat) (s : string)
    (ms : list match_object) : string :=
  match ms with
  | [] => s
  | m :: ms' =>
      Str.take (m_start m - pos) s +:+ expand tpl m
      +:+ sub_from tpl (m_end m) (Str.drop (m_end m - pos) s) ms'
  end.

(** [re.sub(pattern, template, s)] *)
Definition sub (re : regex) (tpl : list template_part) (s : string) : string :=
  sub_from tpl 0 s (finditer re s).

(** *** Reading a pattern

    [compile] reads the text of a pattern of the fragment; it answers
    [None] on anything else (alternation, lazy or counted-range
    quantifiers, a quantifier on a group, negated classes, other
    escapes). *)

Definition is_punct (c : ascii) : bool :=
  Str.between 33 47 c || Str.between 58 64 c || Str.between 91 96 c
  || Str.between 123 126 c.

Definition join_class (acc : option charset) (cs : charset) : option charset :=
  match acc with
  | None => Some cs
  | Some a => Some (CUnion a cs)
  end.

(** The members of a bracket class, the text standing after the bracket. *)
Fixpoint class_body (acc : option charset) (s : string) : option (charset * string) :=
  match s with
  | EmptyString => None
  | String c rest =>
      if Ascii.eqb c "]" then
        match acc with
        | Some cs => Some (cs, rest)
        | None => None
        end
      else if Ascii.eqb c "\" then
        match rest with
        | String e rest' =>
            if Ascii.eqb e "d" then class_body (join_class acc CDigit) rest'
            else if is_punct e then class_body (join_class acc (CLit e)) rest'
            else None
        | EmptyString => None
        end
      else
        match rest with
        | String dash (String hi rest') =>
            if Ascii.eqb dash "-" && negb (Ascii.eqb hi "]") && negb (Ascii.eqb hi "\")
            then class_body (join_class acc (CRange c hi)) rest'
            else class_body (join_class acc (CLit c)) rest
        | _ => class_body (join_class acc (CLit c)) rest
        end
  end.

(** One character matcher at the head of the text. *)
Definition atom (c : ascii) (rest : string) : option (charset * string) :=
  if Ascii.eqb c "." then Some (CAny, rest)
  else if Ascii.eqb c "[" then
    match rest with
    | String n _ => if Ascii.eqb n "^" then None else class_body None rest
    | EmptyString => None
    end
  else if Ascii.eqb c "\" then
    match rest with
    | String e rest' =>
        if Ascii.eqb e "d" then Some (CDigit, rest')
        else if is_punct e then Some (CLit e, rest')
        else None
    | EmptyString => None
    end
  else Some (CLit c, rest).

(** The digits of a count [{n}], up to the closing brace. *)
Fixpoint count_body (n : nat) (seen : bool) (s : string) : option (nat * string) :=
  match s with
  | EmptyString => None
  | String c rest =>
      if Ascii.eqb c "}" then (if seen then Some (n, rest) else None)
      else if Str.is_digit c then count_body (10 * n + (Str.code c - 48)) true rest
      else None
  end.

Definition is_quantifier (c : ascii) : bool :=
  Ascii.eqb c "*" || Ascii.eqb c "+" || Ascii.eqb c "?" || Ascii.eqb c "{".

Definition not_quantified (rest : string) : bool :=
  match rest with
  | String c _ => negb (is_quantifier c)
  | EmptyString => true
  end.

(** The items of a character matcher with the quantifier that follows it,
    last item first. *)
Definition quantified (cs : charset) (rest : string) : option (list item * string) :=
  match rest with
  | String q rest' =>
      if Ascii.eqb q "*" then
        if not_quantified rest' then Some ([IStar cs], rest') else None
      else if Ascii.eqb q "+" then
        if not_quantified rest' then Some ([IPlus cs], rest') else None
      else if Ascii.eqb q "?" then
        if not_quantified rest' then Some ([IOpt cs], rest') else None
      else if Ascii.eqb q "{" then
        match count_body 0 false rest' with
        | Some (n, rest'') =>
            if not_quantified rest'' then Some (repeat (IChar cs) n, rest'') else None
        | None => None
        end
      else Some ([IChar cs], rest)
  | EmptyString => Some ([IChar cs], rest)
  end.

Fixpoint compile_from (fuel : nat) (s : string) (next : nat) (stack : list nat)
    (acc : list item) : option regex :=
  match fuel with
  | O => None
  | S fuel' =>
      match s with
      | EmptyString =>
          match stack with
          | [] => Some {| items := rev acc; groups := next - 1 |}
          | _ :: _ => None
          end
      | String c rest =>
          if Ascii.eqb c "^" then
            if not_quantified rest
            then compile_from fuel' rest next stack (IBol :: acc) else None
          else if Ascii.eqb c "$" then
            if not_quantified rest
            then compile_from fuel' rest next stack (IEol :: acc) else None
          else if Ascii.eqb c "(" then
            if not_quantified rest
            then compile_from fuel' rest (S next) (next :: stack) (IOpen next :: acc)
            else None
          else if Ascii.eqb c ")" then
            match stack with
            | g :: stack' =>
                if not_quantified rest
                then compile_from fuel' rest next stack' (IClose g :: acc) else None
            | [] => None
            end
          else if is_quantifier c || Ascii.eqb c "|" then None
          else
            match atom c rest with
            | Some (cs, rest') =>
                match quantified cs rest' with
                | Some (its, rest'') => compile_from fuel' rest'' next stack (its ++ acc)
                | None => None
                end
            | None => None
            end
      end
  end.

Definition compile (text : string) : option regex :=
  compile_from (S (String.length text)) text 1 [] [].

End Re.

(** ** [inflection.underscore]

    [[
    word = re.sub(r"([A-Z]+)([A-Z][a-z])", r'\1_\2', word)
    word = re.sub(r"([a-z\d])([A-Z])", r'\1_\2', word)
    word = word.replace("-", "_")
    return word.lower()
    ]] *)

(** [([A-Z]+)([A-Z][a-z])] *)
Definition acronym_boundary : Re.regex :=
  {| Re.items := [Re.IOpen 1; Re.IPlus (Re.CRange "A" "Z"); Re.IClose 1;
                  Re.IOpen 2; Re.IChar (Re.CRange "A" "Z");
                  Re.IChar (Re.CRange "a" "z"); Re.IClose 2];
     Re.groups := 2 |}.

(** [([a-z\d])([A-Z])] *)
Definition word_boundary : Re.regex :=
  {| Re.items := [Re.IOpen 1; Re.IChar (Re.CUnion (Re.CRange "a" "z") Re.CDigit);
                  Re.IClose 1; Re.IOpen 2; Re.IChar (Re.CRange "A" "Z");
                  Re.IClose 2];
     Re.groups := 2 |}.

Definition underscore (word : string) : string :=
  let word := Re.sub acronym_boundary [Re.TGroup 1; Re.TLit "_"; Re.TGroup 2] word in
  let word := Re.sub word_boundary [Re.TGroup 1; Re.TLit "_"; Re.TGroup 2] word in
  let word := Str.replace "-" "_" word in
  Str.lower word.

(** ** Dates, values and the calls into other packages *)

(** A [datetime]: the reading of the wall clock in microseconds since
    0001-01-01 00:00, and the offset from UTC (in microseconds) of an aware
    one. *)
Record datetime := { wall : Z; utcoffset : option Z }.

Definition is_leap (y : Z) : bool :=
  ((y mod 4 =? 0) && (negb (y mod 100 =? 0) || (y mod 400 =? 0)))%Z.

Definition days_before_year (y : Z) : Z :=
  let y1 := (y - 1)%Z in (y1 * 365 + y1 / 4 - y1 / 100 + y1 / 400)%Z.

Definition days_in_month (y m : Z) : Z :=
  if (m =? 2)%Z then (if is_leap y then 29 else 28)%Z
  else if ((m =? 4) || (m =? 6) || (m =? 9) || (m =? 11))%Z then 30%Z
  else 31%Z.

Definition days_before_month (y m : Z) : Z :=
  fold_right Z.add 0%Z
    (map (fun k => days_in_month y (Z.of_nat k)) (seq 1 (Z.to_nat m - 1))).

(** [datetime(y, m, d)], a naive midnight. *)
Definition datetime_of_date (y m d : Z) : datetime :=
  {| wall := (days_before_year y + days_before_month y m + d - 1) * 86400000000;
     utcoffset := None |}.

(** [dt.replace(tzinfo=None)] *)
Definition replace_tzinfo_none (dt : datetime) : datetime :=
  {| wall := wall dt; utcoffset := None |}.

(** [a >= b]: two naive datetimes compare by the wall clock, two aware ones
    by the instant, and comparing a naive with an aware one raises. *)
Definition datetime_ge (a b : datetime) : result bool :=
  match utcoffset a, utcoffset b with
  | None, None => Ok (wall b <=? wall a)%Z
  | Some oa, Some ob => Ok (wall b - ob <=? wall a - oa)%Z
  | _, _ => Raise TypeError
  end.

(** The typed values of a canonical row. *)
Inductive value :=
| VStr (s : string)
| VFloat (x : float)
| VDate (d : datetime).

(** The four forms of [unicodedata.normalize]. *)
Inductive normal_form := NFC | NFD | NFKC | NFKD.

(** What the program calls and this development does not compute:
    - [float(text)], [None] when it raises [ValueError];
    - [dateutil.parser.parse(text)], [None] when it raises;
    - [unicodedata.normalize(form, text)];
    - the argsort behind [DataFrame.sort_values(by=col)] with the default
      [kind='quicksort'], given the column ([None] for a missing value). *)
Class Externals := {
  float_of_text : string -> option float;
  dateutil_parse : string -> option datetime;
  unicodedata_normalize : normal_form -> string -> string;
  argsort : list (option value) -> result (list nat)
}.

(** An argument of [float()]: the text of an attribute, or a number as the
    tests pass it. *)
Inductive scalar :=
| Text (s : string)
| Number (x : float).

Definition py_float `{Externals} (v : scalar) : result float :=
  match v with
  | Text s => of_option ValueError (float_of_text s)
  | Number x => Ok x
  end.

Definition parse `{Externals} (s : string) : result datetime :=
  of_option ValueError (dateutil_parse s).

(** ** The field formatters of [AppleHealthFormatter] *)

Definition row := gmap string value.

(** [dict(pairs)]: a later pair overwrites an earlier one with its key. *)
Definition dict_of_pairs (pairs : list (string * value)) : row :=
  fold_left (fun (m : row) (kv : string * value) => <[kv.1 := kv.2]> m) pairs ∅.

(** [a, b = x] for an element of [re.findall]'s list: a tuple of two, or a
    text of two characters. *)
Definition unpack2 (x : Re.found) : result (string * string) :=
  match x with
  | Re.FTuple [a; b] => Ok (a, b)
  | Re.FStr (String a (String b EmptyString)) =>
      Ok (String a EmptyString, String b EmptyString)
  | _ => Raise ValueError
  end.

Definition format_type (inputs : Re.regex * string) : result row :=
  match Re.findall inputs.1 inputs.2 with
  | [] => Raise IndexError
  | first :: _ =>
      let! groups := unpack2 first in
      Ok (<["activity" := VStr groups.2]> (<["activity_type" := VStr groups.1]> ∅))
  end.

Definition format_string `{Externals} (inputs : string * string) : string * string :=
  (underscore inputs.1, unicodedata_normalize NFKD inputs.2).

Definition format_numerics `{Externals} (inputs : string * scalar) : result (string * float) :=
  let! x := py_float inputs.2 in
  Ok (underscore inputs.1, x).

Definition format_no_format (inputs : string * string) : string * string :=
  (underscore inputs.1, inputs.2).

Definition format_date `{Externals} (inputs : string * string) : result (string * datetime) :=
  let! d := parse inputs.2 in
  Ok (underscore inputs.1, d).

(** [PUNC = string.punctuation.replace('.', '')] *)
Definition punctuation : string :=
  String "!" (String "034" "#$%&'()*+,-./:;<=>?@[\]^_`{|}~").

Definition PUNC : string := Str.replace "." "" punctuation.

Definition clean_device_info (device : string) : string * string :=
  let info := Str.split ":" device in
  let key := "device_" +:+
             Str.lower (Str.strip Str.is_space
                          (Str.strip (fun c => Str.mem c PUNC) (hd EmptyString info))) in
  let val := Str.strip Str.is_space
               (Str.strip (fun c => Str.mem c PUNC) (Str.join ":" (tl info))) in
  (key, val).

(** [dict(ChainMap(m1, ..., mn))]: a key is looked up in the maps from the first
    to the last, so the first map that has it gives its value. *)
Definition chain_map (maps : list (gmap string string)) : gmap string string :=
  fold_right (fun m acc => m ∪ acc) ∅ maps.

Definition format_device (device_string : string) : gmap string string :=
  let devices := filter (fun d => Str.contains ":" d = true) (Str.split "," device_string) in
  chain_map (map (fun d => {[ (clean_device_info d).1 := (clean_device_info d).2 ]}) devices).

Definition list_in (x : string) (l : list string) : bool :=
  existsb (String.eqb x) l.

Definition format_standard `{Externals} (inputs : string * scalar * string)
  : result (string * float) :=
  let '(st_key, st_val, unit_val) := inputs in
  let st_key := underscore (Str.replace "total" "" st_key) in
  if list_in st_key ["duration"] then
    let col_name := st_key +:+ "_min" in
    if String.eqb unit_val "min" then
      let! x := py_float st_val in Ok (col_name, x)
    else if String.eqb unit_val "sec" then
      let! x := py_float st_val in Ok (col_name, (x / 60)%float)
    else Raise NotImplementedError
  else if list_in st_key ["distance"; "energy_burned"] then
    let col_name :=
      if Str.startswith "k" unit_val then st_key +:+ "_" +:+ unit_val
      else st_key +:+ "_k" +:+ unit_val in
    if list_in unit_val ["km"; "kcal"] then
      let! x := py_float st_val in Ok (col_name, x)
    else if list_in unit_val ["m"; "cal"] then
      let! x := py_float st_val in Ok (col_name, (x / 1000)%float)
    else Raise NotImplementedError
  else Raise NotImplementedError.

(** ** The format template and the record formatter *)

(** The attribute names a rule-group lists: bare names, or for "standard"
    the pairs (quantity attribute, unit attribute). *)
Inductive attr_names :=
| Names (l : list string)
| Pairs (l : list (string * string)).

(** One category of [activity_format.json]: the rule-groups in the order of
    the file, and the decomposition pattern when there is one. *)
Record node_format := {
  pattern : option Re.regex;
  formats : list (string * attr_names)
}.

(** [NODES = json.loads(template)] *)
Definition template := gmap string node_format.

(** The names of a group that is not "standard"; a pair there is a list used
    as a key of [self.attributes], which raises [TypeError]. *)
Definition bare_names (a : attr_names) : result (list string) :=
  match a with
  | Names l => Ok l
  | Pairs [] => Ok []
  | Pairs (_ :: _) => Raise TypeError
  end.

(** [for attr_type, attr_unit in attr_names]: a bare name unpacks only when
    it has two characters. *)
Definition name_pairs (a : attr_names) : result (list (string * string)) :=
  match a with
  | Pairs l => Ok l
  | Names l =>
      map_result (fun s => match s with
                           | String x (String y EmptyString) =>
                               Ok (String x EmptyString, String y EmptyString)
                           | _ => Raise ValueError
                           end) l
  end.

(** The [try: ... except KeyError: pass] loop: the values of the names that
    the record has, in the order of the names. *)
Definition present_values (attributes : gmap string string) (names : list string)
  : list string :=
  omap (fun aname => attributes !! aname) names.

Definition get_attr (attributes : gmap string string) (aname : string) : result string :=
  of_option KeyError (attributes !! aname).

(** The state of the loop of [format_values]: the row so far, and what
    [dict(d)] gives for the current binding of the local [d] ([None] while
    [d] is unbound). A [map] object is used up by [dict(d)], so it gives the
    empty dict from then on; a dict gives itself again. *)
Record loop_state := {
  formatted_vals : row;
  d : option row
}.

Definition strs (m : gmap string string) : row := VStr <$> m.

Definition merge (st : loop_state) (now : row) (later : row) : loop_state :=
  {| formatted_vals := now ∪ formatted_vals st; d := Some later |}.

(** One round of the loop, for the rule-group [(ftype, names)]. *)
Definition format_group `{Externals} (node : node_format) (attributes : gmap string string)
    (st : loop_state) (group : string * attr_names) : result loop_state :=
  let '(ftype, names) := group in
  if negb (String.eqb ftype "standard") then
    let! names := bare_names names in
    let attr_vals := present_values attributes names in
    if String.eqb ftype "type" then
      let! pat := of_option KeyError (pattern node) in
      let patterns := repeat pat (length names) in
      let! ds := map_result format_type (combine patterns attr_vals) in
      let! first := of_option IndexError (head ds) in
      Ok (merge st first first)
    else if String.eqb ftype "string" then
      let pairs := map format_string (combine names attr_vals) in
      Ok (merge st (dict_of_pairs (map (fun p => (p.1, VStr p.2)) pairs)) ∅)
    else if String.eqb ftype "no_format" then
      let pairs := map format_no_format (combine names attr_vals) in
      Ok (merge st (dict_of_pairs (map (fun p => (p.1, VStr p.2)) pairs)) ∅)
    else if String.eqb ftype "device" then
      match map format_device attr_vals with
      | first :: _ => Ok (merge st (strs first) (strs first))
      | [] =>
          let! again := of_option UnboundLocalError (d st) in
          Ok (merge st again again)
      end
    else if String.eqb ftype "date" then
      let! pairs := map_result format_date (combine names attr_vals) in
      Ok (merge st (dict_of_pairs (map (fun p => (p.1, VDate p.2)) pairs)) ∅)
    else if String.eqb ftype "numerics" then
      let! pairs := map_result format_numerics
                      (combine names (map Text attr_vals)) in
      Ok (merge st (dict_of_pairs (map (fun p => (p.1, VFloat p.2)) pairs)) ∅)
    else Raise NotImplementedError
  else
    let! names := name_pairs names in
    let attr_type := map fst names in
    let! attr_vals := map_result (fun p => get_attr attributes p.1) names in
    let! attr_units := map_result (fun p => get_attr attributes p.2) names in
    let! pairs := map_result format_standard
                    (combine (combine attr_type (map Text attr_vals)) attr_units) in
    Ok (merge st (dict_of_pairs (map (fun p => (p.1, VFloat p.2)) pairs)) ∅).

Fixpoint format_groups `{Externals} (node : node_format) (attributes : gmap string string)
    (st : loop_state) (groups : list (string * attr_names)) : result loop_state :=
  match groups with
  | [] => Ok st
  | g :: groups' =>
      let! st' := format_group node attributes st g in
      format_groups node attributes st' groups'
  end.

(** [AppleHealthFormatter(node_tag, node).values] *)
Definition format_values `{Externals} (NODES : template) (node_tag : string)
    (attributes : gmap string string) : result row :=
  let! node := of_option KeyError (NODES !! node_tag) in
  let! st := format_groups node attributes {| formatted_vals := ∅; d := None |}
               (formats node) in
  Ok (formatted_vals st).

(** ** The date filter of [AppleHealthParser] *)

(** An element of the export: its tag and its attributes. *)
Record element := { tag : string; attrib : gmap string string }.

(** [(\d{4}-\d{2}-\d{2})] *)
Definition file_date_pattern : Re.regex :=
  {| Re.items := [Re.IOpen 1;
                  Re.IChar Re.CDigit; Re.IChar Re.CDigit; Re.IChar Re.CDigit;
                  Re.IChar Re.CDigit; Re.IChar (Re.CLit "-");
                  Re.IChar Re.CDigit; Re.IChar Re.CDigit; Re.IChar (Re.CLit "-");
                  Re.IChar Re.CDigit; Re.IChar Re.CDigit; Re.IClose 1];
     Re.groups := 1 |}.

(** [re.search(...)] gives [None] when nothing matches; [.group(1)] on it
    raises [AttributeError], which the function catches to fall back on
    '2099-01-01'. *)
Definition get_file_date `{Externals} (filename : string) : result datetime :=
  let date :=
    match Re.search file_date_pattern filename with
    | Some m => Re.group m 1
    | None => "2099-01-01"
    end in
  parse date.

Definition keep_if (node : element) (b : bool) : option element :=
  if b then Some node else None.

Definition filter_nodes `{Externals} (node : element) (from_date : datetime)
  : result (option element) :=
  if list_in (tag node) ["Record"; "Workout"; "WorkoutRoute"] then
    let! text := get_attr (attrib node) "creationDate" in
    let! date := parse text in
    let! keep := datetime_ge date from_date in
    Ok (keep_if node keep)
  else if String.eqb (tag node) "ActivitySummary" then
    let from_date_local := replace_tzinfo_none from_date in
    let! text := get_attr (attrib node) "dateComponents" in
    let! date := parse text in
    let! keep := datetime_ge date from_date_local in
    Ok (keep_if node keep)
  else if String.eqb (tag node) "FileReference" then
    let! path := get_attr (attrib node) "path" in
    let! file_date := get_file_date path in
    let from_date_local := replace_tzinfo_none from_date in
    let! keep := datetime_ge file_date from_date_local in
    Ok (keep_if node keep)
  else Ok (Some node).

(** The loop of [get_gpx_files] over the files that pass the date test. *)
Fixpoint filter_gpx_files `{Externals} (from_date_local : datetime)
    (gpx_files : list string) : result (list string) :=
  match gpx_files with
  | [] => Ok []
  | gpx_file :: rest =>
      let! file_date := get_file_date gpx_file in
      let! keep := datetime_ge file_date from_date_local in
      let! kept := filter_gpx_files from_date_local rest in
      Ok (if keep then gpx_file :: kept else kept)
  end.

(** [get_gpx_files], given the listing of the directory 'workout-routes'. *)
Definition get_gpx_files `{Externals} (listing : list string)
    (from_date : option datetime) : result (list string) :=
  let gpx_files := filter (fun f => Str.endswith ".gpx" f = true) listing in
  match from_date with
  | Some from_date => filter_gpx_files (replace_tzinfo_none from_date) gpx_files
  | None => Ok gpx_files
  end.

(** [get_nodes(tag)] for one tag *)
Definition get_nodes (data : list element) (node_tag : string)
  : list (gmap string string) :=
  map attrib (filter (fun node => tag node = node_tag) data).

(** ** The table builder [create_dataframe] *)

(** A [DataFrame]: the rows with their index labels. A key that a row does
    not have is a missing value of that column; the columns are the keys
    that some row has. *)
Definition frame := list (nat * row).

(** [pd.DataFrame(cleaned_vals)] *)
Definition DataFrame (cleaned_vals : list row) : frame :=
  combine (seq 0 (length cleaned_vals)) cleaned_vals.

(** [pd.concat([df, tmp])] keeps the labels of both. *)
Definition concat (df tmp : frame) : frame := df ++ tmp.

Definition column (col : string) (df : frame) : list (option value) :=
  map (fun r => r.2 !! col) df.

Definition has_column (col : string) (df : frame) : bool :=
  existsb (fun o => match o with Some _ => true | None => false end) (column col df).

(** [df.take(indexer)] *)
Definition take_rows (indexer : list nat) (df : frame) : frame :=
  omap (fun i => df !! i) indexer.

(** [df.sort_values(by=col)] *)
Definition sort_values `{Externals} (col : string) (df : frame) : result frame :=
  if has_column col df then
    let! indexer := argsort (column col df) in
    Ok (take_rows indexer df)
  else Raise KeyError.

(** [df.reset_index(drop=True)] *)
Definition reset_index (df : frame) : frame :=
  combine (seq 0 (length df)) (map snd df).

(** [nodes[a:b]] *)
Definition slice {A} (l : list A) (a b : nat) : list A :=
  firstn (b - a) (skipn a l).

Fixpoint lookup_group (ftype : string) (groups : list (string * attr_names))
  : option attr_names :=
  match groups with
  | [] => None
  | (k, a) :: groups' => if String.eqb k ftype then Some a else lookup_group ftype groups'
  end.

(** [underscore(NODES[node_tag]['formats']['date'][0])] *)
Definition date_column (NODES : template) (node_tag : string) : result string :=
  let! node := of_option KeyError (NODES !! node_tag) in
  let! names := of_option KeyError (lookup_group "date" (formats node)) in
  match names with
  | Names (first :: _) => Ok (underscore first)
  | Pairs (_ :: _) => Raise TypeError
  | _ => Raise IndexError
  end.

(** [math.ceil(len(nodes) / float(nprocs))], exact below 2^52 nodes. *)
Definition ceil_div (n nprocs : nat) : nat := (n + nprocs - 1) / nprocs.

(** The directory 'tmp' of the export: its pickles by file name. It
    outlives a call: what a call leaves there the next call finds. *)
Definition store := gmap string frame.

(** [f'{node_tag}{i}.pkl'] *)
Definition export_name (node_tag : string) (i : nat) : string :=
  node_tag +:+ pretty i +:+ ".pkl".

(** The worker of one chunk writes its pickle when every record of the
    chunk is formatted. An exception ends the process before that, and a
    file of that name, if there is one, stays as it was. *)
Definition worker `{Externals} (NODES : template) (node_tag : string)
    (node_chunks : list (gmap string string)) (export_name : string)
    (tmp : store) : store :=
  match map_result (format_values NODES node_tag) node_chunks with
  | Ok cleaned_vals => <[export_name := DataFrame cleaned_vals]> tmp
  | Raise _ => tmp
  end.

(** The loop that starts the workers. Each writes a file of its own, so
    the order in which they finish does not show. *)
Definition start_workers `{Externals} (NODES : template) (node_tag : string)
    (nodes : list (gmap string string)) (chunksize nprocs : nat)
    (tmp : store) : store :=
  fold_left
    (fun tmp i =>
       worker NODES node_tag (slice nodes (chunksize * i) (chunksize * (i + 1)))
         (export_name node_tag i) tmp)
    (seq 0 nprocs) tmp.

(** The loop that reads the pickles back in the order of the workers and
    removes each one read; a missing file ends it, and the files after it
    stay. *)
Fixpoint read_pickles (df : frame) (names : list string) (tmp : store)
  : result frame * store :=
  match names with
  | [] => (Ok df, tmp)
  | name :: rest =>
      match tmp !! name with
      | Some pickle => read_pickles (concat df pickle) rest (delete name tmp)
      | None => (Raise FileNotFoundError, tmp)
      end
  end.

(** [create_dataframe]: what it returns or raises, and the directory 'tmp'
    as it leaves it. *)
Definition create_dataframe `{Externals} (NODES : template) (data : list element)
    (node_tag : string) (nprocs : nat) (tmp : store) : result frame * store :=
  let nodes := get_nodes data node_tag in
  if (nprocs =? 0)%nat then (Raise ZeroDivisionError, tmp)
  else
    let chunksize := ceil_div (length nodes) nprocs in
    let names := map (export_name node_tag) (seq 0 nprocs) in
    let tmp := start_workers NODES node_tag nodes chunksize nprocs tmp in
    let '(df, tmp) := read_pickles [] names tmp in
    (let! df := df in
     let! date_col := date_column NODES node_tag in
     let! df := sort_values date_col df in
     Ok (reset_index df),
     tmp).

(** ** What [sort_values] promises

    [sort_values] is called with its default [kind='quicksort']: the
    indexer is a permutation of the positions, and it puts a column of
    comparable dates in ascending order with the missing values last.
    pandas promises the order of equal keys only for [kind='mergesort'] and
    [kind='stable']. *)

(** The sort key of a date: the instant of an aware one, the wall clock of
    a naive one. *)
Definition instant (dt : datetime) : Z :=
  match utcoffset dt with
  | Some o => (wall dt - o)%Z
  | None => wall dt
  end.

Definition key_of (o : option value) : option Z :=
  match o with
  | Some (VDate dt) => Some (instant dt)
  | _ => None
  end.

Definition is_aware (dt : datetime) : bool :=
  match utcoffset dt with
  | Some _ => true
  | None => false
  end.

Definition date_or_missing (p : datetime -> bool) (o : option value) : bool :=
  match o with
  | None => true
  | Some (VDate dt) => p dt
  | Some _ => false
  end.

(** A column of dates that compare with one another: all aware, or all
    naive. *)
Definition comparable (col : list (option value)) : bool :=
  forallb (date_or_missing is_aware) col
  || forallb (date_or_missing (fun dt => negb (is_aware dt))) col.

(** The order of the keys, a missing value after every date. *)
Definition key_le (a b : option Z) : Prop :=
  match a, b with
  | _, None => True
  | None, Some _ => False
  | Some x, Some y => (x <= y)%Z
  end.

Definition key_leb (a b : option Z) : bool :=
  match a, b with
  | _, None => true
  | None, Some _ => false
  | Some x, Some y => (x <=? y)%Z
  end.

Record ArgsortSpec (E : Externals) : Prop := {
  argsort_permutes : forall col indexer,
    argsort col = Ok indexer -> Permutation indexer (seq 0 (length col));
  argsort_sorts : forall col indexer,
    comparable col = true -> argsort col = Ok indexer ->
    Sorted key_le (map key_of (omap (fun i => col !! i) indexer));
  argsort_returns : forall col,
    comparable col = true -> exists indexer, argsort col = Ok indexer
}.

(** ** A reference instance of the externals

    Exact on the inputs it accepts, and used at such inputs only:
    - [float] on a decimal numeral of at most 15 digits, where the quotient
      of two exactly represented integers is the correctly rounded value;
    - [parse] on a date 'YYYY-MM-DD' and on a timestamp of the export,
      'YYYY-MM-DD HH:MM:SS +HHMM';
    - [normalize] on text of ASCII and the no-break space U+00A0 (in UTF-8
      the bytes 194, 160), whose compatibility decomposition is the space;
    - an argsort of a column of comparable dates, by insertion. *)

Module Reference.

Definition float_of_Z (n : Z) : float := PrimFloat.of_uint63 (Uint63.of_Z n).

(** The digits at the head of a numeral: the integer they spell after
    [acc], how many were read after [count], and what follows them. *)
Fixpoint digits (acc : Z) (count : nat) (s : string) : Z * nat * string :=
  match s with
  | String c s' =>
      if Str.is_digit c
      then digits (10 * acc + Z.of_nat (Str.code c - 48)) (S count) s'
      else (acc, count, s)
  | EmptyString => (acc, count, s)
  end.

Definition unsigned_decimal (s : string) : option float :=
  match digits 0 0 s with
  | (n, k, EmptyString) =>
      if ((0 <? k) && (k <=? 15))%nat then Some (float_of_Z n) else None
  | (n, k, String dot frac) =>
      if Ascii.eqb dot "." then
        match digits n k frac with
        | (m, j, EmptyString) =>
            if ((0 <? k) && (k <? j) && (j <=? 15))%nat
            then Some (float_of_Z m / float_of_Z (10 ^ Z.of_nat (j - k)))%float
            else None
        | _ => None
        end
      else None
  end.

Definition decimal (s : string) : option float :=
  match s with
  | String sign s' =>
      if Ascii.eqb sign "-" then option_map PrimFloat.opp (unsigned_decimal s')
      else unsigned_decimal s
  | EmptyString => None
  end.

Definition number (s : string) : Z := (digits 0 0 s).1.1.

Definition all_digits (s : string) : bool :=
  match digits 0 0 s with
  | (_, _, EmptyString) => true
  | _ => false
  end.

Definition iso_date (s : string) : option datetime :=
  let y := Str.take 4 s in
  let m := Str.take 2 (Str.drop 5 s) in
  let d := Str.take 2 (Str.drop 8 s) in
  if (String.length s =? 10)%nat
     && String.eqb (Str.take 1 (Str.drop 4 s)) "-"
     && String.eqb (Str.take 1 (Str.drop 7 s)) "-"
     && all_digits y && all_digits m && all_digits d
     && (1 <=? number y)%Z && (1 <=? number m)%Z && (number m <=? 12)%Z
     && (1 <=? number d)%Z && (number d <=? days_in_month (number y) (number m))%Z
  then Some (datetime_of_date (number y) (number m) (number d))
  else None.

(** The clock and the offset of a timestamp of the export,
    'YYYY-MM-DD HH:MM:SS +HHMM', after its date. *)
Definition clock_and_offset (s : string) : option (Z * Z) :=
  let field := fun i => Str.take 2 (Str.drop i s) in
  let at_ := fun i => Str.take 1 (Str.drop i s) in
  let hh := number (field 1) in
  let mm := number (field 4) in
  let ss := number (field 7) in
  let oh := number (field 11) in
  let om := number (field 13) in
  if (String.length s =? 15)%nat
     && String.eqb (at_ 0) " " && String.eqb (at_ 3) ":"
     && String.eqb (at_ 6) ":" && String.eqb (at_ 9) " "
     && (String.eqb (at_ 10) "+" || String.eqb (at_ 10) "-")
     && all_digits (field 1) && all_digits (field 4) && all_digits (field 7)
     && all_digits (Str.drop 11 s)
     && (hh <? 24)%Z && (mm <? 60)%Z && (ss <? 60)%Z && (oh <? 24)%Z && (om <? 60)%Z
  then
    let clock := (hh * 3600 + mm * 60 + ss)%Z in
    let offset := (oh * 3600 + om * 60)%Z in
    let west := String.eqb (at_ 10) "-" in
    Some ((clock * 1000000)%Z, ((if west then - offset else offset) * 1000000)%Z)
  else None.

(** A date 'YYYY-MM-DD', or a timestamp of the export. *)
Definition date_text (s : string) : option datetime :=
  match iso_date (Str.take 10 s) with
  | Some day =>
      if (String.length s =? 10)%nat then Some day
      else
        match clock_and_offset (Str.drop 10 s) with
        | Some (clock, offset) =>
            Some {| wall := wall day + clock; utcoffset := Some offset |}
        | None => None
        end
  | None => None
  end.

(** U+00A0 in UTF-8 *)
Definition nbsp : string := String "194" (String "160" EmptyString).

Definition normalize (form : normal_form) (s : string) : string :=
  match form with
  | NFC | NFD => s
  | NFKC | NFKD => Str.replace nbsp " " s
  end.

(** Sorting the positions by insertion: [before a b] tells whether a key
    [a] goes before a key [b] already placed. With [key_leb] equal keys keep
    their order. *)
Fixpoint insert (before : option Z -> option Z -> bool) (x : option Z * nat)
    (l : list (option Z * nat)) : list (option Z * nat) :=
  match l with
  | [] => [x]
  | y :: l' => if before x.1 y.1 then x :: y :: l' else y :: insert before x l'
  end.

Definition isort (before : option Z -> option Z -> bool)
    (l : list (option Z * nat)) : list (option Z * nat) :=
  fold_right (insert before) [] l.

Definition argsort_by (before : option Z -> option Z -> bool)
    (col : list (option value)) : result (list nat) :=
  if comparable col
  then Ok (map snd (isort before (imap (fun i o => (key_of o, i)) col)))
  else Raise TypeError.

(** The reference instance; its argsort keeps equal keys in order. *)
Definition externals : Externals :=
  {| float_of_text := decimal;
     dateutil_parse := date_text;
     unicodedata_normalize := normalize;
     argsort := argsort_by key_leb |}.

End Reference.

(** ** The sort that [sort_values] runs

    [sort_values(by=col)] takes the positions of the missing dates out,
    sorts the positions of the others with numpy's [argsort] of kind
    'quicksort', and puts the missing ones last (pandas' [nargsort]). For
    dates numpy runs its introsort on the array of positions [tosort],
    comparing the keys [v]: a partition around the median of three while a
    range has more than 17 positions, an insertion sort below that, and a
    heapsort for a range whose depth budget is spent. *)
Module Numpy.

(** [v[tosort[p]]] *)
Definition key (v : list Z) (tosort : list nat) (p : nat) : Z :=
  nth (nth p tosort 0%nat) v 0%Z.

(** [INTP_SWAP(tosort[i], tosort[j])] *)
Definition swap (tosort : list nat) (i j : nat) : list nat :=
  <[i := nth j tosort 0%nat]> (<[j := nth i tosort 0%nat]> tosort).

(** [do ++pi; while (v[*pi] < vp)] *)
Fixpoint scan_up (fuel : nat) (v : list Z) (tosort : list nat) (vp : Z) (pi : nat)
  : nat :=
  match fuel with
  | O => pi
  | S fuel =>
      let pi := S pi in
      if (key v tosort pi <? vp)%Z then scan_up fuel v tosort vp pi else pi
  end.

(** [do --pj; while (vp < v[*pj])] *)
Fixpoint scan_down (fuel : nat) (v : list Z) (tosort : list nat) (vp : Z) (pj : nat)
  : nat :=
  match fuel with
  | O => pj
  | S fuel =>
      let pj := pred pj in
      if (vp <? key v tosort pj)%Z then scan_down fuel v tosort vp pj else pj
  end.

(** The loop [for (;;)] of the partition: the array, and where [pi] stops. *)
Fixpoint exchange (fuel : nat) (v : list Z) (tosort : list nat) (vp : Z)
    (pi pj : nat) : list nat * nat :=
  match fuel with
  | O => (tosort, pi)
  | S fuel =>
      let pi := scan_up (length tosort) v tosort vp pi in
      let pj := scan_down (length tosort) v tosort vp pj in
      if (pj <=? pi)%nat then (tosort, pi)
      else exchange fuel v (swap tosort pi pj) vp pi pj
  end.

(** One partition of the range [pl .. pr]: the median of the first, middle
    and last key goes to [pr - 1] as the pivot, and ends at the position
    returned. *)
Definition partition (v : list Z) (tosort : list nat) (pl pr : nat)
  : list nat * nat :=
  let pm := (pl + (pr - pl) / 2)%nat in
  let tosort :=
    if (key v tosort pm <? key v tosort pl)%Z then swap tosort pm pl else tosort in
  let tosort :=
    if (key v tosort pr <? key v tosort pm)%Z then swap tosort pr pm else tosort in
  let tosort :=
    if (key v tosort pm <? key v tosort pl)%Z then swap tosort pm pl else tosort in
  let vp := key v tosort pm in
  let tosort := swap tosort pm (pr - 1) in
  let '(tosort, pi) := exchange (length tosort) v tosort vp pl (pr - 1) in
  (swap tosort pi (pr - 1), pi).

(** [while (pj > pl && vp < v[*pk]) { *pj-- = *pk--; }  *pj = vi;] *)
Fixpoint sink (fuel : nat) (v : list Z) (tosort : list nat) (pl vi : nat) (vp : Z)
    (pj : nat) : list nat :=
  match fuel with
  | O => <[pj := vi]> tosort
  | S fuel =>
      if (pl <? pj)%nat && (vp <? key v tosort (pj - 1))%Z
      then sink fuel v (<[pj := nth (pj - 1) tosort 0%nat]> tosort) pl vi vp (pj - 1)
      else <[pj := vi]> tosort
  end.

(** The insertion sort of the range [pl .. pr]. *)
Definition insertion (v : list Z) (tosort : list nat) (pl pr : nat) : list nat :=
  fold_left
    (fun tosort pi =>
       let vi := nth pi tosort 0%nat in
       sink (length tosort) v tosort pl vi (nth vi v 0%Z) pi)
    (seq (pl + 1) (pr - pl)) tosort.

(** The heap of [aheapsort] is the range from [pl] on, counted from 1:
    [a[k]] is [tosort[pl + k - 1]]. *)
Definition heap_get (tosort : list nat) (pl k : nat) : nat :=
  nth (pl + k - 1) tosort 0%nat.

Definition heap_set (tosort : list nat) (pl k x : nat) : list nat :=
  <[(pl + k - 1)%nat := x]> tosort.

(** The inner loop [for (i = .., j = ..; j <= n;)] with [a[i] = tmp] after
    it. *)
Fixpoint sift (fuel : nat) (v : list Z) (tosort : list nat) (pl tmp i j n : nat)
  : list nat :=
  match fuel with
  | O => heap_set tosort pl i tmp
  | S fuel =>
      if (j <=? n)%nat then
        let j :=
          if (j <? n)%nat
             && (nth (heap_get tosort pl j) v 0 <? nth (heap_get tosort pl (j + 1)) v 0)%Z
          then (j + 1)%nat else j in
        if (nth tmp v 0 <? nth (heap_get tosort pl j) v 0)%Z
        then sift fuel v (heap_set tosort pl i (heap_get tosort pl j)) pl tmp j (j + j) n
        else heap_set tosort pl i tmp
      else heap_set tosort pl i tmp
  end.

(** [aheapsort(v, pl, n)] *)
Definition aheapsort (v : list Z) (tosort : list nat) (pl n : nat) : list nat :=
  let tosort :=
    fold_left
      (fun tosort l => sift n v tosort pl (heap_get tosort pl l) l (l * 2) n)
      (rev (seq 1 (n / 2))) tosort in
  fold_left
    (fun tosort n =>
       let tmp := heap_get tosort pl n in
       let tosort := heap_set tosort pl n (heap_get tosort pl 1) in
       sift n v tosort pl tmp 1 2 (n - 1))
    (rev (seq 2 (n - 1))) tosort.

(** The ranges of [aquicksort]: the range [pl .. pr] is partitioned while
    it has more than 17 positions, the smaller part goes on at once and the
    larger waits on the stack with the depth left; a range taken from the
    stack with no depth left is sorted by [aheapsort]. Ranges apart do not
    touch one another, so the order in which they are taken does not
    show. *)
Fixpoint ranges (fuel : nat) (v : list Z) (tosort : list nat) (pl pr : nat)
    (cdepth : Z) : list nat :=
  match fuel with
  | O => tosort
  | S fuel =>
      if (16 <? pr - pl)%nat then
        let '(tosort, pi) := partition v tosort pl pr in
        let cdepth := (cdepth - 1)%Z in
        let popped tosort pl pr :=
          if (cdepth <? 0)%Z then aheapsort v tosort pl (pr - pl + 1)
          else ranges fuel v tosort pl pr cdepth in
        if (pi - pl <? pr - pi)%nat
        then popped (ranges fuel v tosort pl (pi - 1) cdepth) (pi + 1)%nat pr
        else popped (ranges fuel v tosort (pi + 1) pr cdepth) pl (pi - 1)%nat
      else insertion v tosort pl pr
  end.

(** [v.argsort(kind='quicksort')] *)
Definition aquicksort (v : list Z) : list nat :=
  let num := length v in
  match num with
  | O => []
  | S _ => ranges num v (seq 0 num) 0 (num - 1) (Z.log2 (Z.of_nat num) * 2)
  end.

(** The positions of the dates and of the missing values. *)
Fixpoint non_nans (keys : list (option Z)) (i : nat) : list (nat * Z) :=
  match keys with
  | [] => []
  | Some k :: keys => (i, k) :: non_nans keys (S i)
  | None :: keys => non_nans keys (S i)
  end.

Fixpoint nan_idx (keys : list (option Z)) (i : nat) : list nat :=
  match keys with
  | [] => []
  | Some _ :: keys => nan_idx keys (S i)
  | None :: keys => i :: nan_idx keys (S i)
  end.

(** pandas' [nargsort] with its defaults. *)
Definition nargsort (keys : list (option Z)) : list nat :=
  let present := non_nans keys 0 in
  map (fun k => nth k (map fst present) 0%nat) (aquicksort (map snd present))
  ++ nan_idx keys 0.

Definition argsort_quicksort (col : list (option value)) : result (list nat) :=
  if comparable col then Ok (nargsort (map key_of col)) else Raise TypeError.

(** The reference instance with this sort. *)
Definition externals : Externals :=
  {| float_of_text := Reference.decimal;
     dateutil_parse := Reference.date_text;
     unicodedata_normalize := Reference.normalize;
     argsort := argsort_quicksort |}.

End Numpy.

(** ** The terms of the properties and the sample data *)

(** The key the formatter works with: [underscore(st_key.replace('total', ''))]. *)
Definition standard_key (name : string) : string :=
  underscore (Str.replace "total" "" name).

(** The units known for a quantity type, as the claim has them and as the
    docstring of the formatter names the units it standardizes to: minutes
    and seconds for a duration, kilometres and metres for a distance,
    kilocalories and calories for an energy. *)
Definition known_units (key : string) : list string :=
  if String.eqb key "duration" then ["min"; "sec"]
  else if String.eqb key "distance" then ["km"; "m"]
  else if String.eqb key "energy_burned" then ["kcal"; "cal"]
  else [].

Definition supported (name unit_val : string) : bool :=
  list_in unit_val (known_units (standard_key name)).

(** A unit of the other quantity: an energy unit with a distance, a
    distance unit with an energy. *)
Definition crossed (name unit_val : string) : bool :=
  String.eqb (standard_key name) "distance" && list_in unit_val ["kcal"; "cal"]
  || String.eqb (standard_key name) "energy_burned" && list_in unit_val ["km"; "m"].

(** Whether the binary64 number [s] is sixty times the binary64 number [v],
    with no rounding: the same sign, and mantissas and exponents that give
    the sixtyfold; a zero or an infinity against the same. *)
Definition exactly_sixty_times (s v : float) : bool :=
  match Prim2SF s, Prim2SF v with
  | S754_finite bs ms es, S754_finite bv mv ev =>
      Bool.eqb bs bv
      && (Zpos ms * 2 ^ (es - Z.min es ev) =? 60 * Zpos mv * 2 ^ (ev - Z.min es ev))%Z
  | S754_zero bs, S754_zero bv => Bool.eqb bs bv
  | S754_infinity bs, S754_infinity bv => Bool.eqb bs bv
  | _, _ => false
  end.

(** The items of a literal text. *)
Definition literal (text : string) : list Re.item :=
  map (fun c => Re.IChar (Re.CLit c)) (list_ascii_of_string text).

(** [^HK(.+)ActivityType(.+)$], the pattern of the workouts. *)
Definition workout_pattern : Re.regex :=
  {| Re.items := Re.IBol :: literal "HK"
                 ++ [Re.IOpen 1; Re.IPlus Re.CAny; Re.IClose 1]
                 ++ literal "ActivityType"
                 ++ [Re.IOpen 2; Re.IPlus Re.CAny; Re.IClose 2; Re.IEol];
     Re.groups := 2 |}.

(** [HK(.+)ActivityType(.+)], the same without its anchors. *)
Definition activity_anywhere : Re.regex :=
  {| Re.items := literal "HK"
                 ++ [Re.IOpen 1; Re.IPlus Re.CAny; Re.IClose 1]
                 ++ literal "ActivityType"
                 ++ [Re.IOpen 2; Re.IPlus Re.CAny; Re.IClose 2];
     Re.groups := 2 |}.

Definition newline : string := String "010" EmptyString.

(** The value of the first pair that has the key. *)
Fixpoint lookup_first (key : string) (pairs : list (string * string)) : option string :=
  match pairs with
  | [] => None
  | (k, v) :: pairs' => if String.eqb k key then Some v else lookup_first key pairs'
  end.

(** The components of a device string that have a colon. *)
Definition components (device_string : string) : list string :=
  filter (fun d => Str.contains ":" d = true) (Str.split "," device_string).

Definition strip_clean (s : string) : string :=
  Str.strip Str.is_space (Str.strip (fun c => Str.mem c PUNC) s).

(** Whether a text begins with a date, 'dddd-dd-dd'. *)
Definition date_prefix (s : string) : bool :=
  match s with
  | String y1 (String y2 (String y3 (String y4 (String a
      (String m1 (String m2 (String b (String d1 (String d2 _))))))))) =>
      Str.is_digit y1 && Str.is_digit y2 && Str.is_digit y3 && Str.is_digit y4
      && Ascii.eqb a "-" && Str.is_digit m1 && Str.is_digit m2
      && Ascii.eqb b "-" && Str.is_digit d1 && Str.is_digit d2
  | _ => false
  end.

(** No date anywhere in the text. *)
Definition dateless (filename : string) : Prop :=
  forall before rest, filename = before +:+ rest -> date_prefix rest = false.

(** The sentinel, [datetime(2099, 1, 1)]. *)
Definition sentinel : datetime := datetime_of_date 2099 1 1.

Fixpoint has_date (s : string) : bool :=
  date_prefix s ||
  match s with
  | EmptyString => false
  | String _ s' => has_date s'
  end.

(** [^HK(.+)TypeIdentifier(.+)$] *)
Definition record_pattern : Re.regex :=
  {| Re.items := Re.IBol :: literal "HK"
                 ++ [Re.IOpen 1; Re.IPlus Re.CAny; Re.IClose 1]
                 ++ literal "TypeIdentifier"
                 ++ [Re.IOpen 2; Re.IPlus Re.CAny; Re.IClose 2; Re.IEol];
     Re.groups := 2 |}.

(** A template in the shape of [activity_format.json], with the rule-groups
    the tests of the package exercise. *)
Definition sample_template : template :=
  list_to_map
    [("Workout",
      {| pattern := Some workout_pattern;
         formats :=
           [("type", Names ["workoutActivityType"]);
            ("string", Names ["sourceName"]);
            ("no_format", Names ["sourceVersion"]);
            ("device", Names ["device"]);
            ("date", Names ["creationDate"; "startDate"; "endDate"]);
            ("standard", Pairs [("duration", "durationUnit");
                                ("totalDistance", "totalDistanceUnit");
                                ("totalEnergyBurned", "totalEnergyBurnedUnit")])] |});
     ("Record",
      {| pattern := Some record_pattern;
         formats :=
           [("type", Names ["type"]);
            ("string", Names ["sourceName"]);
            ("no_format", Names ["sourceVersion"; "unit"; "value"]);
            ("device", Names ["device"]);
            ("date", Names ["creationDate"; "startDate"; "endDate"])] |});
     ("ActivitySummary",
      {| pattern := None;
         formats :=
           [("date", Names ["dateComponents"]);
            ("numerics", Names ["activeEnergyBurned"; "appleStandHoursGoal"])] |})].

(** A step count with no [sourceVersion]. *)
Definition step_count : gmap string string :=
  list_to_map
    [("type", "HKQuantityTypeIdentifierStepCount");
     ("sourceName", "Watch");
     ("unit", "count");
     ("value", "12");
     ("creationDate", "2020-04-06 14:03:33 +0200");
     ("startDate", "2020-04-06 13:50:00 +0200");
     ("endDate", "2020-04-06 13:55:00 +0200")].

(** A yoga workout; [without] drops attributes from it. *)
Definition yoga : gmap string string :=
  list_to_map
    [("workoutActivityType", "HKWorkoutActivityTypeYoga");
     ("duration", "55.5"); ("durationUnit", "min");
     ("totalDistance", "0"); ("totalDistanceUnit", "km");
     ("totalEnergyBurned", "158.9"); ("totalEnergyBurnedUnit", "kcal");
     ("sourceName", "Watch"); ("sourceVersion", "6.1.3");
     ("device", "name:Apple Watch, manufacturer:Apple Inc.");
     ("creationDate", "2020-04-06 14:03:33 +0200");
     ("startDate", "2020-04-06 13:05:00 +0200");
     ("endDate", "2020-04-06 14:00:30 +0200")].

Definition without (names : list string) (attributes : gmap string string)
  : gmap string string :=
  fold_right delete attributes names.

Definition field (key : string) (r : result row) : result (option value) :=
  let! values := r in Ok (values !! key).

(** The table that sorting and renumbering make of the rows. *)
Definition table_of_rows `{Externals} (col : string) (rows : list row) : result frame :=
  if existsb (fun o => match o with Some _ => true | None => false end)
       (map (fun r : row => r !! col) rows)
  then
    let! indexer := argsort (map (fun r : row => r !! col) rows) in
    Ok (DataFrame (omap (fun i => rows !! i) indexer))
  else Raise KeyError.

(** The chunks of the workers. *)
Definition chunks {A} (nodes : list A) (nprocs : nat) : list (list A) :=
  let chunksize := ceil_div (length nodes) nprocs in
  map (fun i => slice nodes (chunksize * i) (chunksize * (i + 1))) (seq 0 nprocs).

(** Three step counts of one source, the last two created at the same
    second, and a workout between them. *)
Definition step_count_at (created value : string) : element :=
  {| tag := "Record";
     attrib := list_to_map
       [("type", "HKQuantityTypeIdentifierStepCount");
        ("sourceName", "Watch"); ("sourceVersion", "6.1.3");
        ("unit", "count"); ("value", value);
        ("creationDate", created);
        ("startDate", "2020-04-06 13:50:00 +0200");
        ("endDate", "2020-04-06 13:55:00 +0200")] |}.

Definition sample_data : list element :=
  [step_count_at "2020-04-07 08:00:00 +0200" "30";
   {| tag := "Workout"; attrib := yoga |};
   step_count_at "2020-04-06 14:03:33 +0200" "12";
   step_count_at "2020-04-06 14:03:33 +0200" "7"].

(** The file that the parent finds for a chunk: the pickle of its rows, or
    what was there before when a record of the chunk raises. *)
Definition found `{Externals} (NODES : template) (node_tag : string)
    (tmp : store) (name : string) (chunk : list (gmap string string))
  : option frame :=
  match map_result (format_values NODES node_tag) chunk with
  | Ok cleaned_vals => Some (DataFrame cleaned_vals)
  | Raise _ => tmp !! name
  end.

(** The frames found, put together in their order. *)
Fixpoint gather (df : frame) (pickles : list (option frame)) : result frame :=
  match pickles with
  | [] => Ok df
  | Some pickle :: rest => gather (concat df pickle) rest
  | None :: _ => Raise FileNotFoundError
  end.

(** No pickle of the category is left in 'tmp' for the workers of a call. *)
Definition no_leftover (node_tag : string) (nprocs : nat) (tmp : store) : Prop :=
  forall i, (i < nprocs)%nat -> tmp !! export_name node_tag i = None.

(** A call reads no pickle of an earlier call: every record of the category
    is formatted, or no pickle of the category is left. *)
Definition reads_its_own `{Externals} (NODES : template) (data : list element)
    (node_tag : string) (nprocs : nat) (tmp : store) : Prop :=
  (exists rows,
      map_result (format_values NODES node_tag) (get_nodes data node_tag) = Ok rows)
  \/ no_leftover node_tag nprocs tmp.

(** The rows of the records of a category, and the table of a call, where
    they are made. *)
Definition rows_of (E : Externals) (NODES : template) (data : list element)
    (node_tag : string) : list row :=
  match map_result (@format_values E NODES node_tag) (get_nodes data node_tag) with
  | Ok rows => rows
  | Raise _ => []
  end.

Definition table_for (E : Externals) (data : list element) (node_tag : string)
    (nprocs : nat) (tmp : store) : frame :=
  match (@create_dataframe E sample_template data node_tag nprocs tmp).1 with
  | Ok df => df
  | Raise _ => []
  end.

(** Two exports with a workout that is not formatted, for lack of its
    distance: the first in an earlier export, the last in a later one. What
    the earlier call with three workers leaves in 'tmp' the later call
    finds. *)
Definition workout (source created : string) : element :=
  {| tag := "Workout";
     attrib := <["sourceName" := source]> (<["creationDate" := created]> yoga) |}.

Definition unformatted : element :=
  {| tag := "Workout"; attrib := without ["totalDistance"] yoga |}.

Definition earlier_export : list element :=
  [unformatted;
   workout "Earlier" "2020-04-01 08:00:00 +0200";
   workout "Earlier too" "2020-04-02 08:00:00 +0200"].

Definition later_export : list element :=
  [workout "Later" "2020-04-06 14:03:33 +0200"; unformatted].

Definition left_behind : store :=
  (@create_dataframe Reference.externals sample_template earlier_export
     "Workout" 3 ∅).2.


(** ** More of the parser: tags, the report, and terms of the properties *)

(** Whether a date 'dddd-dd-dd' starts at a character of [before] in the
    text [before +:+ tail]. *)
Fixpoint date_starts_in (before tail : string) : bool :=
  match before with
  | EmptyString => false
  | String _ before' =>
      date_prefix (before +:+ tail) || date_starts_in before' tail
  end.


(** [get_nodes(tags)] for a list of tags; a single tag [t] is first made the
    list [[t]]. *)
Definition get_nodes_in (data : list element) (tags : list string)
  : list (gmap string string) :=
  map attrib (filter (fun node => list_in (tag node) tags = true) data).

(** The tags [report_stats] counts. *)
Definition used_tags : list string :=
  ["Record"; "Workout"; "ActivitySummary"; "Me"; "ExportDate"].

(** What [report_stats] logs last: that the extraction is complete, or a
    warning with the number of records not extracted. *)
Inductive extraction :=
| ExtractionCompleted
| NotExtracted (n : Z).

(** [report_stats], given the nodes and the three tables: the verdict that
    it logs last. *)
Definition report_stats (data : list element)
    (workouts records activities : frame) : extraction :=
  let n_nodes :=
    length (filter (fun node => list_in (tag node) used_tags = true) data) in
  let len_w := length workouts in
  let len_r := length records in
  let len_a := length activities in
  let len_total := (len_w + len_r + len_a)%nat in
  if (len_total + 2 =? n_nodes)%nat then ExtractionCompleted
  else NotExtracted (Z.of_nat n_nodes - 2 - Z.of_nat len_total).

(** After a round, [d] is bound and what [dict(d)] gives is already in the
    row. *)
Definition settled (st : loop_state) : Prop :=
  exists later, d st = Some later /\ later ⊆ formatted_vals st.

(** The row of a record, where it is made. *)
Definition row_of (E : Externals) (NODES : template) (node_tag : string)
    (attributes : gmap string string) : row :=
  match @format_values E NODES node_tag attributes with
  | Ok values => values
  | Raise _ => ∅
  end.

(** The sample data with a day's activity summary, the personal data and
    the date of the export. *)
Definition export_data : list element :=
  sample_data
  ++ [ {| tag := "ActivitySummary";
          attrib := list_to_map
            [("dateComponents", "2020-04-06");
             ("activeEnergyBurned", "408.302");
             ("appleStandHoursGoal", "12")] |};
       {| tag := "Me";
          attrib := {[ "HKCharacteristicTypeIdentifierDateOfBirth" := "1989-04-24" ]} |};
       {| tag := "ExportDate";
          attrib := {[ "value" := "2020-04-17 10:00:00 +0200" ]} |} ].

(** * Properties *)

Example underscore_examples :
  map underscore ["sourceName"; "creationDate"; "EnergyBurned"; "HKDevice"; "some-Name2X"]
  = ["source_name"; "creation_date"; "energy_burned"; "hk_device"; "some_name2_x"].
Proof. vm_compute. reflexivity. Qed.

(** ** The standard-quantity formatter *)

Section FormatStandard.

Context `{E : Externals}.

Lemma replace_from_absent old new s :
  Str.contains old s = false -> Str.replace_from old new 0 s = s.
Proof.
  induction s as [|c s IH]; [reflexivity|].
  intros Hc. simpl in Hc. apply orb_false_iff in Hc as [Hs Hc].
  cbn [Str.replace_from]. rewrite Hs. f_equal. apply IH, Hc.
Qed.

Lemma replace_total_absent rest :
  Str.contains "total" rest = false -> Str.replace "total" "" rest = rest.
Proof. apply replace_from_absent. Qed.

Lemma replace_total_prefix rest :
  Str.contains "total" rest = false ->
  Str.replace "total" "" ("total" +:+ rest) = rest.
Proof.
  intros Hc.
  change ("total" +:+ rest)
    with (String "t" (String "o" (String "t" (String "a" (String "l" rest))))).
  cbn. apply replace_from_absent, Hc.
Qed.

Lemma standard_key_of rest name :
  Str.contains "total" rest = false ->
  name = rest \/ name = "total" +:+ rest ->
  standard_key name = underscore rest.
Proof.
  intros Hc [-> | ->]; unfold standard_key.
  - now rewrite replace_total_absent.
  - now rewrite replace_total_prefix.
Qed.

(** The formatter, unfolded at its key. *)
Lemma format_standard_unfold name st_val unit_val :
  format_standard (name, st_val, unit_val) =
  let key := standard_key name in
  if list_in key ["duration"] then
    if String.eqb unit_val "min" then
      let! x := py_float st_val in Ok (key +:+ "_min", x)
    else if String.eqb unit_val "sec" then
      let! x := py_float st_val in Ok (key +:+ "_min", (x / 60)%float)
    else Raise NotImplementedError
  else if list_in key ["distance"; "energy_burned"] then
    if list_in unit_val ["km"; "kcal"] then
      let! x := py_float st_val in
      Ok ((if Str.startswith "k" unit_val then key +:+ "_" +:+ unit_val
           else key +:+ "_k" +:+ unit_val), x)
    else if list_in unit_val ["m"; "cal"] then
      let! x := py_float st_val in
      Ok ((if Str.startswith "k" unit_val then key +:+ "_" +:+ unit_val
           else key +:+ "_k" +:+ unit_val), (x / 1000)%float)
    else Raise NotImplementedError
  else Raise NotImplementedError.
Proof. reflexivity. Qed.

(** C3. For a quantity-type name with or without the prefix "total", the
    formatter works on the snake-cased remainder. A duration in "min" is
    returned as it is and one in "sec" divided by 60, under the name
    suffixed "_min"; a distance or an energy in "km" or "kcal" is returned
    as it is, under the name suffixed by the unit, and one in "m" or "cal"
    divided by 1000, under the name suffixed by "k" and the unit. *)
Theorem format_standard_standardizes :
  forall (rest name : string) (st_val : scalar) (unit_val : string) (x : float),
    Str.contains "total" rest = false ->
    name = rest \/ name = "total" +:+ rest ->
    py_float st_val = Ok x ->
    (underscore rest = "duration" ->
       (unit_val = "min" ->
          format_standard (name, st_val, unit_val) = Ok ("duration_min", x)) /\
       (unit_val = "sec" ->
          format_standard (name, st_val, unit_val)
          = Ok ("duration_min", (x / 60)%float))) /\
    (underscore rest = "distance" \/ underscore rest = "energy_burned" ->
       (unit_val = "km" \/ unit_val = "kcal" ->
          format_standard (name, st_val, unit_val)
          = Ok (underscore rest +:+ "_" +:+ unit_val, x)) /\
       (unit_val = "m" \/ unit_val = "cal" ->
          format_standard (name, st_val, unit_val)
          = Ok (underscore rest +:+ "_k" +:+ unit_val, (x / 1000)%float))).
Proof.
  intros rest name st_val unit_val x Hc Hname Hx.
  rewrite format_standard_unfold, (standard_key_of rest name Hc Hname), Hx.
  split.
  - intros ->. split; intros ->; reflexivity.
  - intros [-> | ->]; (split; intros [-> | ->]; reflexivity).
Qed.

Lemma py_float_not_unsupported st_val :
  py_float st_val <> Raise NotImplementedError.
Proof.
  destruct st_val as [s | x]; cbn; [|discriminate].
  destruct (float_of_text s); discriminate.
Qed.

Lemma bind_not_unsupported {A} st_val (k : float -> A) :
  (let! x := py_float st_val in Ok (k x)) <> Raise NotImplementedError.
Proof.
  pose proof (py_float_not_unsupported st_val) as Hne.
  destruct (py_float st_val); cbn; [discriminate | congruence].
Qed.

(** C4 fails on the code. The formatter tests the unit of a distance and
    of an energy against the same four units, so it takes a distance in
    "kcal" or "cal" and an energy in "km" or "m": there it returns a pair,
    named "distance_kcal" or "energy_burned_km", where the claim has the
    unsupported-unit error. Everywhere else the claim holds: the error is
    raised exactly when the unit is neither known for the quantity type nor
    crossed, and a known unit with a value that [float] reads gives a
    pair. *)
Theorem format_standard_crossed_units :
  forall (name : string) (st_val : scalar) (unit_val : string),
    (format_standard (name, st_val, unit_val) = Raise NotImplementedError
     <-> supported name unit_val = false /\ crossed name unit_val = false)
    /\ (forall x, supported name unit_val = true -> py_float st_val = Ok x ->
        exists col y, format_standard (name, st_val, unit_val) = Ok (col, y))
    /\ (forall x, crossed name unit_val = true -> py_float st_val = Ok x ->
        supported name unit_val = false
        /\ exists col y, format_standard (name, st_val, unit_val) = Ok (col, y))
    /\ (forall x, py_float st_val = Ok x ->
        format_standard ("totalDistance", st_val, "kcal") = Ok ("distance_kcal", x)
        /\ format_standard ("totalDistance", st_val, "cal")
           = Ok ("distance_kcal", (x / 1000)%float)
        /\ format_standard ("totalEnergyBurned", st_val, "km")
           = Ok ("energy_burned_km", x)
        /\ format_standard ("totalEnergyBurned", st_val, "m")
           = Ok ("energy_burned_km", (x / 1000)%float)).
Proof.
  intros name st_val unit_val.
  assert (Hfour : forall x, py_float st_val = Ok x ->
            format_standard ("totalDistance", st_val, "kcal") = Ok ("distance_kcal", x)
            /\ format_standard ("totalDistance", st_val, "cal")
               = Ok ("distance_kcal", (x / 1000)%float)
            /\ format_standard ("totalEnergyBurned", st_val, "km")
               = Ok ("energy_burned_km", x)
            /\ format_standard ("totalEnergyBurned", st_val, "m")
               = Ok ("energy_burned_km", (x / 1000)%float)).
  { intros x Hx. rewrite !format_standard_unfold.
    replace (standard_key "totalDistance") with "distance" by (vm_compute; reflexivity).
    replace (standard_key "totalEnergyBurned") with "energy_burned"
      by (vm_compute; reflexivity).
    rewrite Hx. repeat split; reflexivity. }
  refine (conj _ (conj _ (conj _ Hfour))); clear Hfour;
    rewrite format_standard_unfold; unfold supported, crossed, known_units, list_in;
    cbn [existsb]; cbv zeta;
    remember (standard_key name) as key eqn:Hkey; clear Hkey;
    (destruct (String.eqb key "duration") eqn:Hd;
     [apply String.eqb_eq in Hd; subst key
     |destruct (String.eqb key "distance") eqn:Hdi;
      [apply String.eqb_eq in Hdi; subst key
      |destruct (String.eqb key "energy_burned") eqn:He;
       [apply String.eqb_eq in He; subst key|]]]);
    cbn [String.eqb Ascii.eqb Bool.eqb orb andb existsb];
    rewrite ?orb_false_r;
    (destruct (String.eqb unit_val "min") eqn:U1;
     [apply String.eqb_eq in U1; subst unit_val
     |destruct (String.eqb unit_val "sec") eqn:U2;
      [apply String.eqb_eq in U2; subst unit_val
      |destruct (String.eqb unit_val "km") eqn:U3;
       [apply String.eqb_eq in U3; subst unit_val
       |destruct (String.eqb unit_val "kcal") eqn:U4;
        [apply String.eqb_eq in U4; subst unit_val
        |destruct (String.eqb unit_val "m") eqn:U5;
         [apply String.eqb_eq in U5; subst unit_val
         |destruct (String.eqb unit_val "cal") eqn:U6;
          [apply String.eqb_eq in U6; subst unit_val|]]]]]]);
    cbn [String.eqb Ascii.eqb Bool.eqb orb andb existsb Str.startswith];
    try (split; [intros Hr; now apply bind_not_unsupported in Hr
                |intros [? ?]; discriminate]);
    try (split; [intros _; split; reflexivity | intros _; reflexivity]);
    try (intros x ? Hx; try discriminate; rewrite Hx; cbn [bind];
         try (split; [reflexivity|]); eauto).
Qed.

End FormatStandard.

Section ExactMinutes.

Local Open Scope Z_scope.

Lemma digits2_pos_bounds (m : positive) :
  2 ^ (Zpos (digits2_pos m) - 1) <= Zpos m < 2 ^ Zpos (digits2_pos m).
Proof.
  induction m as [m IH | m IH |]; cbn [digits2_pos].
  - rewrite Pos2Z.inj_succ.
    replace (Z.succ (Zpos (digits2_pos m)) - 1) with (Z.succ (Zpos (digits2_pos m) - 1))
      by lia.
    rewrite !Z.pow_succ_r by lia. lia.
  - rewrite Pos2Z.inj_succ.
    replace (Z.succ (Zpos (digits2_pos m)) - 1) with (Z.succ (Zpos (digits2_pos m) - 1))
      by lia.
    rewrite !Z.pow_succ_r by lia. lia.
  - cbn. lia.
Qed.

Lemma digits2_pos_iter (m n : positive) :
  digits2_pos (Pos.iter xO m n) = (digits2_pos m + n)%positive.
Proof.
  induction n as [|n IH] using Pos.peano_ind.
  - cbn. lia.
  - rewrite Pos.iter_succ. cbn [digits2_pos]. rewrite IH. lia.
Qed.

Lemma Zpos_iter (m n : positive) : Zpos (Pos.iter xO m n) = Zpos m * 2 ^ Zpos n.
Proof.
  induction n as [|n IH] using Pos.peano_ind.
  - cbn. lia.
  - rewrite Pos.iter_succ, Pos2Z.inj_succ, Z.pow_succ_r by lia.
    rewrite Pos2Z.inj_xO, IH. lia.
Qed.

Lemma iter_shr_exact (n m : positive) :
  SpecFloat.iter_pos shr_1 n
    {| shr_m := Zpos (Pos.iter xO m n); shr_r := false; shr_s := false |}
  = {| shr_m := Zpos m; shr_r := false; shr_s := false |}.
Proof.
  revert m. induction n as [n IH | n IH |]; intros m; cbn [Pos.iter SpecFloat.iter_pos].
  - cbn [shr_1 orb]. now rewrite !IH.
  - now rewrite !IH.
  - reflexivity.
Qed.

Lemma fexp_mono (a b : Z) : a <= b -> fexp prec emax a <= fexp prec emax b.
Proof. unfold fexp, emin, prec, emax. lia. Qed.

(** The quotient of a binary64 number by 60 when the quotient is a
    binary64 number. *)
Lemma SFdiv_sixty (sx : bool) (mx mv : positive) (ex ev : Z) :
  bounded prec emax mx ex = true ->
  bounded prec emax mv ev = true ->
  Zpos mx * 2 ^ (ex - Z.min ex ev) = 60 * Zpos mv * 2 ^ (ev - Z.min ex ev) ->
  SFdiv prec emax (S754_finite sx mx ex) (S754_finite false 8444249301319680 (-47))
  = S754_finite sx mv ev.
Proof.
  intros Hx Hv Hexact.
  apply andb_prop in Hx as [Hcx Hbx]. apply andb_prop in Hv as [Hcv Hbv].
  unfold canonical_mantissa in Hcx, Hcv.
  apply Z.eqb_eq in Hcx, Hcv. apply Z.leb_le in Hbv.
  pose proof (digits2_pos_bounds mx) as Hdx.
  pose proof (digits2_pos_bounds mv) as Hdv.
  set (dx := Zpos (digits2_pos mx)) in *.
  set (dv := Zpos (digits2_pos mv)) in *.
  set (a := ex - Z.min ex ev) in *. set (b := ev - Z.min ex ev) in *.
  assert (Ha : 0 <= a) by lia. assert (Hb : 0 <= b) by lia.
  assert (Hdigits : dx + ex - 6 <= dv + ev).
  { assert (H1 : 2 ^ (dx - 1 + a) < 2 ^ (dv + b + 6)).
    { rewrite !Z.pow_add_r by lia. change (2 ^ 6) with 64.
      assert (0 < 2 ^ a) by (apply Z.pow_pos_nonneg; lia).
      assert (0 < 2 ^ b) by (apply Z.pow_pos_nonneg; lia).
      nia. }
    apply Z.pow_lt_mono_r_iff in H1; lia. }
  unfold SFdiv, SFdiv_core_binary. cbn [Zdigits2].
  change (Zpos (digits2_pos 8444249301319680)) with 53. fold dx.
  set (e' := Z.min (fexp prec emax (dx + ex - (53 + -47))) (ex - -47)).
  assert (He'v : e' <= ev).
  { rewrite <- Hcv. fold dv. etransitivity; [apply Z.le_min_l|].
    apply fexp_mono. lia. }
  assert (He'x : e' <= ex + 47) by (unfold e'; lia).
  set (t := ev - e'). assert (Ht : 0 <= t) by lia.
  assert (Hm' : match ex - -47 - e' with
                | 0 => Zpos mx
                | Zpos _ => Z.shiftl (Zpos mx) (ex - -47 - e')
                | Zneg _ => 0
                end = (Zpos mv * 2 ^ t) * 8444249301319680).
  { assert (Hs : Zpos mx * 2 ^ (ex + 47 - e') = (Zpos mv * 2 ^ t) * 8444249301319680).
    { set (c := Z.min ex ev + 47 - e').
      assert (Hc : 0 <= c) by lia.
      replace (ex + 47 - e') with (a + c) by lia.
      replace 8444249301319680 with (15 * 2 ^ 49) by reflexivity.
      assert (Ht49 : t + 49 = b + c + 2) by lia.
      rewrite Z.pow_add_r by lia. rewrite Z.mul_assoc, Hexact.
      transitivity (15 * Zpos mv * 2 ^ (b + c + 2)).
      - rewrite !Z.pow_add_r by lia. change (2 ^ 2) with 4. lia.
      - rewrite <- Ht49. rewrite Z.pow_add_r by lia. lia. }
    destruct (ex - -47 - e') as [|p|p] eqn:Hse.
    - rewrite <- Hs. replace (ex + 47 - e') with 0 by lia. cbn. lia.
    - rewrite Z.shiftl_mul_pow2 by lia. rewrite <- Hs. f_equal. f_equal. lia.
    - lia. }
  rewrite Hm'.
  rewrite (surjective_pairing (Z.div_eucl _ _)).
  change (fst (Z.div_eucl ?x ?y)) with (x / y).
  change (snd (Z.div_eucl ?x ?y)) with (x mod y).
  rewrite Z.div_mul by discriminate. rewrite Z.mod_mul by discriminate.
  change (new_location 8444249301319680 0) with loc_Exact.
  unfold binary_round_aux, shr_fexp.
  assert (Hq : exists q : positive,
             Zpos mv * 2 ^ t = Zpos q
             /\ Zpos (digits2_pos q) + e' = dv + ev
             /\ shr (shr_record_of_loc (Zpos q) loc_Exact) e' (ev - e')
                = ({| shr_m := Zpos mv; shr_r := false; shr_s := false |}, ev)).
  { unfold t. destruct (ev - e') as [|n|n] eqn:Hte.
    - exists mv. split; [cbn; lia|]. split; [fold dv; lia|].
      cbn. f_equal. lia.
    - exists (Pos.iter xO mv n). split; [now rewrite Zpos_iter|].
      split; [rewrite digits2_pos_iter, Pos2Z.inj_add; fold dv; lia|].
      cbn [shr shr_record_of_loc]. rewrite iter_shr_exact. f_equal. lia.
    - lia. }
  destruct Hq as (q & -> & Hdq & Hshr). cbn [Zdigits2].
  rewrite Hdq. fold dv in Hcv. rewrite Hcv, Hshr.
  cbn [shr_m loc_of_shr_record round_nearest_even Zdigits2].
  fold dv. rewrite Hcv, Z.sub_diag. cbn [shr shr_record_of_loc shr_m].
  apply Z.leb_le in Hbv. rewrite Hbv. now rewrite xorb_false_r.
Qed.

Lemma div_sixty_exact (s v : float) :
  exactly_sixty_times s v = true -> (s / 60)%float = v.
Proof.
  unfold exactly_sixty_times. intros H.
  apply FloatAxioms.Prim2SF_inj. rewrite FloatAxioms.div_spec.
  change (Prim2SF 60) with (S754_finite false 8444249301319680 (-47)).
  pose proof (Prim2SF_valid s) as Hs. pose proof (Prim2SF_valid v) as Hv.
  destruct (Prim2SF s) as [bs|bs| |bs ms es], (Prim2SF v) as [bv|bv| |bv mv ev];
    try discriminate H.
  - apply eqb_prop in H as ->. cbn. now rewrite xorb_false_r.
  - apply eqb_prop in H as ->. cbn. now rewrite xorb_false_r.
  - apply andb_prop in H as [Hb He]. apply eqb_prop in Hb as ->.
    apply Z.eqb_eq in He. now apply SFdiv_sixty.
Qed.

Local Close Scope Z_scope.

Context `{E : Externals}.

(** C9, as the code has it. When the number of seconds is sixty times the
    number of minutes with no rounding, the duration in "sec" and the
    duration in "min" give the same pair, named "duration_min" with the
    number of minutes as value: the binary64 division of the seconds by 60
    is then exact. So it is for 600 sec and 10 min, which both give 10.0,
    for any whole number of minutes whose sixtyfold is a binary64 number,
    and for values like 1.5 and 0.25; the values are the numbers that
    [float] reads, given as text or as numbers. *)
Theorem duration_exact_minutes_agree :
  forall (s v : scalar) (xs xv : float),
    py_float s = Ok xs ->
    py_float v = Ok xv ->
    exactly_sixty_times xs xv = true ->
    format_standard ("duration", s, "sec") = Ok ("duration_min", xv)
    /\ format_standard ("duration", v, "min") = Ok ("duration_min", xv).
Proof.
  intros s v xs xv Hs Hv Hexact.
  rewrite !format_standard_unfold.
  replace (standard_key "duration") with "duration" by (vm_compute; reflexivity).
  cbv zeta. cbn [list_in existsb String.eqb Ascii.eqb Bool.eqb orb].
  rewrite Hs, Hv. cbn [bind].
  now rewrite (div_sixty_exact xs xv Hexact).
Qed.

End ExactMinutes.

(** The numbers of seconds that are sixty times the number of minutes with
    no rounding, and two that are not. *)
Example exactly_sixty_times_examples :
  map (fun p : float * float => exactly_sixty_times p.1 p.2)
    [(600, 10); (90, 1.5); (15, 0.25); (-420, -7); (6000060, 100001);
     (65970697666560, 1099511627776); (0, 0);
     (18 / 10, 3 / 100); (60 * (3 / 100), 3 / 100)]%float
  = [true; true; true; true; true; true; true; false; false].
Proof. vm_compute. reflexivity. Qed.

(** C9, as the claim has it, fails: 60 times 0.03 seconds do not come out as
    0.03 minutes, and neither does the text "1.8" in seconds against "0.03"
    in minutes. *)
Lemma duration_seconds_minutes_differ :
  @format_standard Reference.externals
    ("duration", Number (60 * (3 / 100))%float, "sec")
  <> @format_standard Reference.externals
       ("duration", Number (3 / 100)%float, "min")
  /\ @format_standard Reference.externals ("duration", Text "1.8", "sec")
     <> @format_standard Reference.externals ("duration", Text "0.03", "min").
Proof. split; vm_compute; intros H; discriminate H. Qed.

Lemma duration_exact_minutes_agree_witness :
  @format_standard Reference.externals ("duration", Text "600", "sec")
  = Ok ("duration_min", 10%float)
  /\ @format_standard Reference.externals ("duration", Number 10%float, "min")
     = Ok ("duration_min", 10%float).
Proof.
  apply (@duration_exact_minutes_agree Reference.externals
           (Text "600") (Number 10%float) 600%float 10%float);
    vm_compute; reflexivity.
Defined.

Lemma format_standard_standardizes_witness :
  @format_standard Reference.externals ("totalDistance", Text "2.5", "km")
  = Ok ("distance_km", 2.5%float)
  /\ @format_standard Reference.externals ("totalEnergyBurned", Number 2500%float, "cal")
     = Ok ("energy_burned_kcal", 2.5%float).
Proof.
  split.
  - apply (@format_standard_standardizes Reference.externals
             "Distance" "totalDistance" (Text "2.5") "km" 2.5%float);
      [reflexivity | right; reflexivity | reflexivity | left; reflexivity
      | left; reflexivity].
  - apply (@format_standard_standardizes Reference.externals
             "EnergyBurned" "totalEnergyBurned" (Number 2500%float) "cal" 2500%float);
      [reflexivity | right; reflexivity | reflexivity | right; reflexivity
      | right; reflexivity].
Defined.

(** ** The type formatter *)

Example patterns_compiled :
  Re.compile "([A-Z]+)([A-Z][a-z])" = Some acronym_boundary
  /\ Re.compile "([a-z\d])([A-Z])" = Some word_boundary
  /\ Re.compile "(\d{4}-\d{2}-\d{2})" = Some file_date_pattern
  /\ Re.compile "^HK(.+)ActivityType(.+)$" = Some workout_pattern
  /\ Re.compile "HK(.+)ActivityType(.+)" = Some activity_anywhere.
Proof. repeat split; vm_compute; reflexivity. Qed.

Lemma unpack2_not_index_error x : unpack2 x <> Raise IndexError.
Proof.
  destruct x as [s | l]; cbn.
  - destruct s as [|a [|b [|c s]]]; discriminate.
  - destruct l as [|a [|b [|c l]]]; discriminate.
Qed.

(** C7, as the code has it. On the pattern of the workouts and the text
    "HKWorkoutActivityTypeYoga" the type formatter returns activity_type
    "Workout" and activity "Yoga". It raises [IndexError] exactly when the
    pattern matches nowhere; when the pattern matches, it returns the two
    groups of the first match, whatever matches follow. *)
Theorem format_type_first_match :
  format_type (workout_pattern, "HKWorkoutActivityTypeYoga")
  = Ok (<["activity" := VStr "Yoga"]> (<["activity_type" := VStr "Workout"]> ∅))
  /\ (forall pat s, format_type (pat, s) = Raise IndexError <-> Re.findall pat s = [])
  /\ (forall pat s, forall a b rest, Re.findall pat s = Re.FTuple [a; b] :: rest ->
      format_type (pat, s)
      = Ok (<["activity" := VStr b]> (<["activity_type" := VStr a]> ∅))).
Proof.
  split; [vm_compute; reflexivity|]. split.
  - intros pat s. unfold format_type. cbn [fst snd].
    destruct (Re.findall pat s) as [|first rest]; [split; reflexivity|].
    split; [|discriminate].
    pose proof (unpack2_not_index_error first) as Hne.
    destruct (unpack2 first); cbn; [discriminate | congruence].
  - intros pat s a b rest Hf. unfold format_type. cbn [fst snd].
    rewrite Hf. reflexivity.
Qed.

(** C7, as the claim has it, fails: the unanchored pattern matches twice in
    a text of two lines, and the formatter returns the first match. *)
Lemma format_type_two_matches :
  Re.findall activity_anywhere
    ("HKWorkoutActivityTypeYoga" +:+ newline +:+ "HKWorkoutActivityTypeRunning")
  = [Re.FTuple ["Workout"; "Yoga"]; Re.FTuple ["Workout"; "Running"]]
  /\ format_type (activity_anywhere,
       "HKWorkoutActivityTypeYoga" +:+ newline +:+ "HKWorkoutActivityTypeRunning")
     = Ok (<["activity" := VStr "Yoga"]> (<["activity_type" := VStr "Workout"]> ∅)).
Proof. split; vm_compute; reflexivity. Qed.

(** ** The string formatter *)

(** C8, as the code has it. The string formatter returns the snake-cased
    name with the value in the form NFKD: the compatibility decomposition,
    with no recombination. *)
Theorem format_string_nfkd `{Externals} :
  forall name value : string,
    format_string (name, value) = (underscore name, unicodedata_normalize NFKD value).
Proof. reflexivity. Qed.

(** C8, as the claim has it, fails: a no-break space in the value comes out
    as a space, which is not its form NFC. *)
Lemma format_string_not_nfc :
  @format_string Reference.externals ("sourceName", "Apple" +:+ Reference.nbsp +:+ "Watch")
  = ("source_name", "Apple Watch")
  /\ @format_string Reference.externals ("sourceName", "Apple" +:+ Reference.nbsp +:+ "Watch")
     <> (underscore "sourceName",
         @unicodedata_normalize Reference.externals NFC
           ("Apple" +:+ Reference.nbsp +:+ "Watch")).
Proof. split; vm_compute; [reflexivity | intros H; discriminate H]. Qed.

(** ** The device formatter *)

Lemma append_cons c s t : String c s +:+ t = String c (s +:+ t).
Proof. reflexivity. Qed.

Lemma append_nil t : EmptyString +:+ t = t.
Proof. reflexivity. Qed.

Lemma split_not_nil sep s : Str.split sep s <> [].
Proof.
  destruct s as [|c s]; cbn; [discriminate|].
  destruct (Ascii.eqb c sep); [discriminate|].
  destruct (Str.split sep s); discriminate.
Qed.

Lemma join_split sep s :
  Str.join (String sep EmptyString) (Str.split sep s) = s.
Proof.
  induction s as [|c s IH]; [reflexivity|].
  cbn [Str.split]. destruct (Ascii.eqb c sep) eqn:Hc.
  - apply Ascii.eqb_eq in Hc as ->.
    pose proof (split_not_nil sep s) as Hne.
    destruct (Str.split sep s) as [|w ws]; [congruence|].
    cbn [Str.join]. rewrite append_nil, append_cons, append_nil.
    f_equal. exact IH.
  - pose proof (split_not_nil sep s) as Hne.
    destruct (Str.split sep s) as [|w ws]; [congruence|].
    destruct ws as [|w' ws].
    + cbn [Str.join] in *. now subst.
    + cbn [Str.join] in *. rewrite append_cons. f_equal. exact IH.
Qed.

Lemma split_first sep label rest :
  Str.contains (String sep EmptyString) label = false ->
  Str.split sep (label +:+ String sep EmptyString +:+ rest)
  = label :: Str.split sep rest.
Proof.
  induction label as [|c label IH]; intros Hc.
  - rewrite append_nil, append_cons, append_nil. cbn [Str.split].
    now rewrite Ascii.eqb_refl.
  - cbn in Hc. apply orb_false_iff in Hc as [Hc Hl].
    rewrite andb_true_r in Hc.
    rewrite append_cons. cbn [Str.split].
    rewrite Ascii.eqb_sym, Hc, (IH Hl). reflexivity.
Qed.

Lemma chain_map_lookup pairs key :
  chain_map (map (fun p : string * string => {[ p.1 := p.2 ]}) pairs) !! key
  = lookup_first key pairs.
Proof.
  induction pairs as [|[k v] pairs IH]; cbn [map chain_map fold_right lookup_first fst snd].
  - apply lookup_empty.
  - change (fold_right (fun m acc => m ∪ acc) ∅
              (map (fun p : string * string => {[ p.1 := p.2 ]}) pairs))
      with (chain_map (map (fun p : string * string => {[ p.1 := p.2 ]}) pairs)).
    rewrite lookup_union, IH.
    destruct (String.eqb k key) eqn:Hk.
    + apply String.eqb_eq in Hk as ->. rewrite lookup_singleton_eq.
      destruct (lookup_first key pairs); reflexivity.
    + apply String.eqb_neq in Hk. rewrite lookup_singleton_ne by exact Hk.
      destruct (lookup_first key pairs); reflexivity.
Qed.

(** C6, as the code has it. The device string of the specification
    decomposes into six keys. In general the string is split on commas, the
    components without a colon are dropped, and a key of the result has the
    value of the first component that cleans to this key: an earlier
    component is not overwritten by a later one. A component is split at its
    first colon: the key is "device_" and the label, stripped and
    lower-cased; the value is the rest, stripped. *)
Theorem format_device_first_wins :
  format_device
    "Name:Apple Watch,Manufacturer:Apple Inc.,Model:Watch,HardwareVersion:Watch5,SoftwareVersion:6.1.3,HKDevice:0x"
  = list_to_map [("device_name", "Apple Watch");
                 ("device_manufacturer", "Apple Inc.");
                 ("device_model", "Watch");
                 ("device_hardwareversion", "Watch5");
                 ("device_softwareversion", "6.1.3");
                 ("device_hkdevice", "0x")]
  /\ (forall device_string key,
        format_device device_string !! key
        = lookup_first key (map clean_device_info (components device_string)))
  /\ (forall label rest,
        Str.contains ":" label = false ->
        clean_device_info (label +:+ ":" +:+ rest)
        = ("device_" +:+ Str.lower (strip_clean label), strip_clean rest)).
Proof.
  split; [vm_compute; reflexivity|]. split.
  - intros device_string key. unfold format_device.
    fold (components device_string).
    rewrite <- chain_map_lookup, map_map. reflexivity.
  - intros label rest Hc. unfold clean_device_info.
    rewrite (split_first ":" label rest Hc). cbn [hd tl].
    rewrite (join_split ":" rest). reflexivity.
Qed.

(** C6, as the claim has it, fails: of two components with the same key the
    first one gives the value. *)
Lemma format_device_later_does_not_win :
  format_device "Name:Apple Watch,Name:iPhone" = {[ "device_name" := "Apple Watch" ]}
  /\ format_device "Name:Apple Watch,Name:iPhone" !! "device_name" <> Some "iPhone".
Proof. split; vm_compute; [reflexivity | intros H; discriminate H]. Qed.

(** ** The date of a file *)

Lemma wall_sentinel : wall sentinel = 66206505600000000%Z.
Proof. vm_compute. reflexivity. Qed.

Lemma sentinel_naive : utcoffset sentinel = None.
Proof. reflexivity. Qed.

Lemma match_date_pattern start pos s :
  date_prefix s = false ->
  Re.match_items start false (Re.items file_date_pattern) pos s Re.no_captures = None.
Proof.
  intros Hd. cbn [Re.items file_date_pattern Re.match_items Re.charset_mem].
  repeat
    (match goal with
     | |- match ?s with EmptyString => None | String _ _ => _ end = None =>
         destruct s; [reflexivity|]
     | |- (if Str.is_digit ?c then _ else None) = None =>
         destruct (Str.is_digit c) eqn:?; [|reflexivity]
     | |- (if Ascii.eqb ?c ?d then _ else None) = None =>
         destruct (Ascii.eqb c d) eqn:?; [|reflexivity]
     end; cbn [Re.match_items Re.charset_mem]).
  cbn in Hd.
  repeat match goal with H : _ = true |- _ => rewrite H in Hd; clear H end.
  discriminate Hd.
Qed.

Lemma search_dateless re_pos s :
  (forall before rest, s = before +:+ rest -> date_prefix rest = false) ->
  Re.search_from file_date_pattern false re_pos s = None.
Proof.
  revert re_pos. induction s as [|c s IH]; intros pos Hs.
  - cbn [Re.search_from]. rewrite match_date_pattern; [reflexivity|].
    apply (Hs EmptyString). reflexivity.
  - cbn [Re.search_from]. rewrite match_date_pattern.
    + apply IH. intros before rest ->.
      apply (Hs (String c before)). reflexivity.
    + apply (Hs EmptyString). reflexivity.
Qed.

Lemma get_file_date_dateless `{Externals} filename :
  dateless filename -> get_file_date filename = parse "2099-01-01".
Proof.
  intros Hd. unfold get_file_date, Re.search.
  now rewrite search_dateless.
Qed.

Lemma filter_gpx_files_keeps `{Externals} filename cutoff :
  get_file_date filename = Ok sentinel ->
  utcoffset cutoff = None ->
  (wall cutoff < wall sentinel)%Z ->
  forall gpx_files kept,
    filter_gpx_files cutoff gpx_files = Ok kept ->
    In filename gpx_files -> In filename kept.
Proof.
  intros Hdate Hnaive Hlt gpx_files.
  induction gpx_files as [|f rest IH]; intros kept Hk Hin; [destruct Hin|].
  cbn [filter_gpx_files] in Hk.
  destruct (get_file_date f) as [file_date|] eqn:Hf; [|discriminate].
  cbn [bind] in Hk.
  destruct (datetime_ge file_date cutoff) as [keep|] eqn:Hge; [|discriminate].
  cbn [bind] in Hk.
  destruct (filter_gpx_files cutoff rest) as [kept'|] eqn:Hrest; [|discriminate].
  cbn [bind] in Hk. injection Hk as <-.
  destruct Hin as [-> | Hin].
  - rewrite Hdate in Hf. injection Hf as <-.
    unfold datetime_ge in Hge. rewrite Hnaive, sentinel_naive in Hge.
    replace (wall cutoff <=? wall sentinel)%Z with true in Hge
      by (symmetry; apply Z.leb_le; lia).
    injection Hge as <-. left; reflexivity.
  - specialize (IH kept' eq_refl Hin).
    destruct keep; [right|]; exact IH.
Qed.

(** C10. For a file name with no date 'dddd-dd-dd' in it the date of the
    file is the sentinel 2099-01-01 (what [parse] makes of '2099-01-01'). So
    with a cutoff earlier than the sentinel a FileReference node of this
    path passes [filter_nodes], and a file of this name that the directory
    lists with the ending '.gpx' is among the files [get_gpx_files]
    returns, as it is when there is no cutoff. *)
Theorem dateless_file_is_kept `{Externals} :
  forall filename : string,
    dateless filename ->
    dateutil_parse "2099-01-01" = Some sentinel ->
    get_file_date filename = Ok sentinel
    /\ (forall node from_date,
          tag node = "FileReference" ->
          attrib node !! "path" = Some filename ->
          (wall from_date < wall sentinel)%Z ->
          filter_nodes node from_date = Ok (Some node))
    /\ (forall listing from_date kept,
          In filename listing ->
          Str.endswith ".gpx" filename = true ->
          (wall from_date < wall sentinel)%Z ->
          get_gpx_files listing (Some from_date) = Ok kept ->
          In filename kept)
    /\ (forall listing,
          In filename listing ->
          Str.endswith ".gpx" filename = true ->
          exists kept, get_gpx_files listing None = Ok kept /\ In filename kept).
Proof.
  intros filename Hd Hparse.
  assert (Hdate : get_file_date filename = Ok sentinel).
  { rewrite (get_file_date_dateless filename Hd). unfold parse.
    now rewrite Hparse. }
  split; [exact Hdate|]. split; [|split].
  - intros node from_date Htag Hpath Hlt.
    unfold filter_nodes. rewrite Htag. cbn [list_in existsb String.eqb orb].
    change (String.eqb "FileReference" "ActivitySummary") with false.
    change (String.eqb "FileReference" "FileReference") with true.
    cbn iota. unfold get_attr. rewrite Hpath. cbn [of_option bind].
    rewrite Hdate. cbn [bind].
    unfold datetime_ge. rewrite sentinel_naive.
    cbn [utcoffset replace_tzinfo_none wall bind].
    replace (wall from_date <=? wall sentinel)%Z with true; [reflexivity|].
    symmetry. apply Z.leb_le. lia.
  - intros listing from_date kept Hin Hgpx Hlt Hk.
    unfold get_gpx_files in Hk.
    apply (filter_gpx_files_keeps filename (replace_tzinfo_none from_date) Hdate
             eq_refl Hlt _ kept Hk).
    apply list_elem_of_In, list_elem_of_filter. split; [exact Hgpx|].
    apply list_elem_of_In, Hin.
  - intros listing Hin Hgpx. eexists. split; [reflexivity|].
    apply list_elem_of_In, list_elem_of_filter. split; [exact Hgpx|].
    apply list_elem_of_In, Hin.
Qed.

Lemma has_date_dateless s : has_date s = false -> dateless s.
Proof.
  induction s as [|c s IH]; intros Hs before rest Heq.
  - destruct before; [|discriminate]. rewrite append_nil in Heq. now subst.
  - cbn [has_date] in Hs. apply orb_false_iff in Hs as [Hp Hs].
    destruct before as [|b before].
    + rewrite append_nil in Heq. now subst.
    + rewrite append_cons in Heq. injection Heq as _ Heq.
      exact (IH Hs before rest Heq).
Qed.

Lemma dateless_file_is_kept_witness :
  @get_file_date Reference.externals "route.gpx" = Ok sentinel
  /\ @get_gpx_files Reference.externals ["route.gpx"; "notes.txt"]
       (Some (datetime_of_date 2020 4 12)) = Ok ["route.gpx"].
Proof.
  split.
  - apply (@dateless_file_is_kept Reference.externals "route.gpx");
      [apply has_date_dateless; vm_compute; reflexivity | vm_compute; reflexivity].
  - vm_compute. reflexivity.
Defined.

(** ** The record formatter on a record that lacks a declared attribute *)

(** C1 fails on the code. With every declared attribute present the yoga
    workout is formatted. A step count without [sourceVersion] has the value
    of [unit] under "source_version" and the value of [value] under "unit":
    the names are paired with the values that are present, in order. A
    workout without [creationDate] has its start under "creation_date". A
    workout without [totalDistance] raises [KeyError] in the group
    "standard", and one without [workoutActivityType] raises [IndexError] in
    the group "type". *)
Theorem format_values_absent_attribute :
  field "distance_km" (@format_values Reference.externals sample_template "Workout" yoga)
  = Ok (Some (VFloat 0%float))
  /\ (step_count !! "sourceVersion" = None
      /\ step_count !! "unit" = Some "count"
      /\ field "source_version"
           (@format_values Reference.externals sample_template "Record" step_count)
         = Ok (Some (VStr "count"))
      /\ field "unit"
           (@format_values Reference.externals sample_template "Record" step_count)
         = Ok (Some (VStr "12"))
      /\ field "value"
           (@format_values Reference.externals sample_template "Record" step_count)
         = Ok None)
  /\ field "creation_date"
       (@format_values Reference.externals sample_template "Workout"
          (without ["creationDate"] yoga))
     = Ok (option_map VDate (Reference.date_text "2020-04-06 13:05:00 +0200"))
  /\ @format_values Reference.externals sample_template "Workout"
       (without ["totalDistance"; "totalDistanceUnit"] yoga)
     = Raise KeyError
  /\ @format_values Reference.externals sample_template "Workout"
       (without ["workoutActivityType"] yoga)
     = Raise IndexError.
Proof. repeat split; vm_compute; reflexivity. Qed.

(** ** The table builder *)

Section Lists.

Context {A B : Type}.

Lemma firstn_plus (a b : nat) (l : list A) :
  firstn (a + b) l = firstn a l ++ firstn b (skipn a l).
Proof.
  revert l. induction a as [|a IH]; intros l; [reflexivity|].
  destruct l as [|x l]; cbn.
  - now destruct b.
  - f_equal. apply IH.
Qed.

Lemma skipn_plus (a b : nat) (l : list A) :
  skipn (a + b) l = skipn b (skipn a l).
Proof.
  revert l. induction a as [|a IH]; intros l; [reflexivity|].
  destruct l as [|x l]; cbn; [now destruct b | apply IH].
Qed.

Lemma slices_from (c n k : nat) (l : list A) :
  List.concat (map (fun i => slice l (c * i) (c * (i + 1))) (seq k n))
  = firstn (c * n) (skipn (c * k) l).
Proof.
  revert k. induction n as [|n IH]; intros k.
  - now rewrite Nat.mul_0_r.
  - cbn [seq map List.concat]. rewrite IH. unfold slice.
    replace (c * (k + 1) - c * k)%nat with c by lia.
    replace (c * S k)%nat with (c * k + c)%nat by lia.
    replace (c * S n)%nat with (c + c * n)%nat by lia.
    now rewrite skipn_plus, firstn_plus.
Qed.

Lemma ceil_div_covers (n nprocs : nat) :
  (1 <= nprocs)%nat -> (n <= ceil_div n nprocs * nprocs)%nat.
Proof.
  intros Hn. unfold ceil_div.
  pose proof (Nat.mul_succ_div_gt (n + nprocs - 1) nprocs ltac:(lia)) as H.
  nia.
Qed.

Lemma chunks_concat (nodes : list A) (nprocs : nat) :
  (1 <= nprocs)%nat -> List.concat (chunks nodes nprocs) = nodes.
Proof.
  intros Hn. unfold chunks. rewrite slices_from.
  rewrite Nat.mul_0_r. cbn [skipn].
  apply firstn_all2. apply ceil_div_covers, Hn.
Qed.

Lemma map_result_app (f : A -> result B) (l1 l2 : list A) :
  map_result f (l1 ++ l2)
  = let! r1 := map_result f l1 in
    let! r2 := map_result f l2 in
    Ok (r1 ++ r2).
Proof.
  induction l1 as [|x l1 IH]; cbn [map_result app].
  - cbn. now destruct (map_result f l2).
  - destruct (f x) as [y|e]; cbn [bind]; [|reflexivity].
    rewrite IH. destruct (map_result f l1) as [r1|e]; cbn [bind]; [|reflexivity].
    now destruct (map_result f l2).
Qed.

Lemma combine_seq_fst (l : list A) (k : nat) :
  map fst (combine (seq k (length l)) l) = seq k (length l).
Proof.
  revert k. induction l as [|x l IH]; intros k; [reflexivity|].
  cbn. f_equal. apply IH.
Qed.

Lemma combine_seq_snd (l : list A) (k : nat) :
  map snd (combine (seq k (length l)) l) = l.
Proof.
  revert k. induction l as [|x l IH]; intros k; [reflexivity|].
  cbn. f_equal. apply IH.
Qed.

Lemma combine_seq_length (l : list A) (k : nat) :
  length (combine (seq k (length l)) l) = length l.
Proof. rewrite length_combine, length_seq. lia. Qed.

Lemma forallb_permutation (p : A -> bool) (l l' : list A) :
  Permutation l l' -> forallb p l = forallb p l'.
Proof.
  induction 1 as [|x l l' _ IH|x y l|l l' l'' _ IH1 _ IH2]; cbn.
  - reflexivity.
  - now rewrite IH.
  - now rewrite !andb_assoc, (andb_comm (p y)).
  - now rewrite IH1.
Qed.

End Lists.

Section Lookups.
Context {A B : Type}.
Lemma omap_lookup_from (l : list A) (pre : list A) :
  omap (fun i => (pre ++ l) !! i) (seq (length pre) (length l)) = l.
Proof.
  revert pre. induction l as [|x l IH]; intros pre; [reflexivity|].
  cbn [length seq]. 
  change (omap ?f (?a :: ?r)) with (match f a with Some y => y :: omap f r | None => omap f r end).
  cbv beta.
  rewrite lookup_app_r by lia. rewrite Nat.sub_diag. cbn [lookup list_lookup].
  f_equal.
  specialize (IH (pre ++ [x])).
  rewrite length_app, <- app_assoc in IH. cbn in IH.
  rewrite Nat.add_1_r in IH. exact IH.
Qed.

Lemma omap_lookup_seq (l : list A) :
  omap (fun i => l !! i) (seq 0 (length l)) = l.
Proof. apply (omap_lookup_from l []). Qed.

Lemma omap_lookup_fmap (f : A -> B) (l : list A) (indexer : list nat) :
  map f (omap (fun i => l !! i) indexer) = omap (fun i => map f l !! i) indexer.
Proof.
  induction indexer as [|i indexer IH]; [reflexivity|].
  change (omap ?f (?a :: ?r)) with (match f a with Some y => y :: omap f r | None => omap f r end).
  cbv beta.
  change (map f l !! i) with ((f <$> l) !! i).
  rewrite list_lookup_fmap.
  destruct (l !! i); cbn [fmap option_fmap option_map map]; [f_equal|]; exact IH.
Qed.
End Lookups.

(** *** The pickles in the directory 'tmp' *)

Lemma length_append (s1 s2 : string) :
  String.length (s1 +:+ s2) = (String.length s1 + String.length s2)%nat.
Proof.
  induction s1 as [|c s1 IH]; [reflexivity|].
  rewrite append_cons. cbn [String.length]. now rewrite IH.
Qed.

Lemma append_inj_suffix (s1 s2 x : string) : s1 +:+ x = s2 +:+ x -> s1 = s2.
Proof.
  intros Heq.
  assert (Hlen : String.length s1 = String.length s2).
  { apply (f_equal String.length) in Heq. rewrite !length_append in Heq. lia. }
  revert s2 Heq Hlen. induction s1 as [|c s1 IH]; intros [|c' s2] Heq Hlen;
    try discriminate Hlen; [reflexivity|].
  rewrite !append_cons in Heq. injection Heq as -> Heq. f_equal.
  apply IH; [exact Heq|]. cbn [String.length] in Hlen. lia.
Qed.

Lemma export_name_inj (node_tag : string) (i j : nat) :
  export_name node_tag i = export_name node_tag j -> i = j.
Proof.
  unfold export_name. intros Heq.
  apply String.app_inj in Heq. apply append_inj_suffix in Heq.
  now apply (inj pretty) in Heq.
Qed.

Section Store.

Context `{E : Externals}.
Variable NODES : template.
Variable node_tag : string.
Variable chunk_of : nat -> list (gmap string string).

Let step (tmp : store) (i : nat) : store :=
  worker NODES node_tag (chunk_of i) (export_name node_tag i) tmp.

Lemma worker_found (tmp : store) (i : nat) :
  step tmp i !! export_name node_tag i
  = found NODES node_tag tmp (export_name node_tag i) (chunk_of i).
Proof.
  unfold step, worker, found.
  destruct (map_result _ _); [apply lookup_insert_eq | reflexivity].
Qed.

Lemma worker_other (tmp : store) (i : nat) (name : string) :
  name <> export_name node_tag i -> step tmp i !! name = tmp !! name.
Proof.
  intros Hne. unfold step, worker.
  destruct (map_result _ _); [|reflexivity].
  now apply lookup_insert_ne.
Qed.

Lemma workers_other (idxs : list nat) (tmp : store) (name : string) :
  (forall i, i ∈ idxs -> name <> export_name node_tag i) ->
  fold_left step idxs tmp !! name = tmp !! name.
Proof.
  revert tmp. induction idxs as [|i idxs IH]; intros tmp Hne; [reflexivity|].
  cbn [fold_left]. rewrite IH.
  - apply worker_other, Hne. left.
  - intros j Hj. apply Hne. now right.
Qed.

Lemma worker_delete (tmp : store) (i : nat) (name : string) :
  name <> export_name node_tag i ->
  delete name (step tmp i) = step (delete name tmp) i.
Proof.
  intros Hne. unfold step, worker.
  destruct (map_result _ _); [|reflexivity].
  now apply delete_insert_ne.
Qed.

Lemma workers_delete (idxs : list nat) (tmp : store) (name : string) :
  (forall i, i ∈ idxs -> name <> export_name node_tag i) ->
  delete name (fold_left step idxs tmp) = fold_left step idxs (delete name tmp).
Proof.
  revert tmp. induction idxs as [|i idxs IH]; intros tmp Hne; [reflexivity|].
  cbn [fold_left]. rewrite IH.
  - f_equal. apply worker_delete, Hne. left.
  - intros j Hj. apply Hne. now right.
Qed.

(** What the parent reads: for each worker the pickle of its chunk, or what
    was in 'tmp' under its name. *)
Lemma read_started (idxs : list nat) :
  NoDup idxs ->
  forall (df : frame) (tmp : store),
    (read_pickles df (map (export_name node_tag) idxs) (fold_left step idxs tmp)).1
    = gather df
        (map (fun i => found NODES node_tag tmp (export_name node_tag i) (chunk_of i))
             idxs).
Proof.
  induction 1 as [|i idxs Hi Hnd IH]; intros df tmp; [reflexivity|].
  assert (Hne : forall j, j ∈ idxs -> export_name node_tag i <> export_name node_tag j).
  { intros j Hj Heq. apply export_name_inj in Heq as ->. exact (Hi Hj). }
  cbn [map fold_left read_pickles gather].
  rewrite (workers_other idxs _ _ Hne), worker_found.
  destruct (found NODES node_tag tmp (export_name node_tag i) (chunk_of i))
    as [pickle|]; [|reflexivity].
  rewrite (workers_delete idxs _ _ Hne), IH. f_equal.
  apply map_ext_in. intros j Hj. unfold found.
  destruct (map_result _ _); [reflexivity|].
  rewrite (lookup_delete_ne (step tmp i)).
  - apply worker_other. intros Heq. apply export_name_inj in Heq as ->.
    apply Hi, list_elem_of_In, Hj.
  - apply Hne, list_elem_of_In, Hj.
Qed.

(** When every record is formatted the parent reads the rows of the chunks
    in their order; when one raises and no pickle is left, it finds no
    file. *)
Lemma gather_chunks (idxs : list nat) :
  forall (df : frame) (tmp : store),
    match map_result (format_values NODES node_tag)
            (List.concat (map chunk_of idxs)) with
    | Ok rows =>
        exists df',
          gather df
            (map (fun i => found NODES node_tag tmp (export_name node_tag i) (chunk_of i))
                 idxs) = Ok df'
          /\ map snd df' = map snd df ++ rows
    | Raise _ =>
        (forall i, i ∈ idxs -> tmp !! export_name node_tag i = None) ->
        gather df
          (map (fun i => found NODES node_tag tmp (export_name node_tag i) (chunk_of i))
               idxs) = Raise FileNotFoundError
    end.
Proof.
  induction idxs as [|i idxs IH]; intros df tmp.
  - cbn. exists df. now rewrite app_nil_r.
  - cbn [List.concat map gather]. rewrite map_result_app. unfold found at 1 3.
    destruct (map_result (format_values NODES node_tag) (chunk_of i)) as [rows1|e];
      cbn [bind].
    + specialize (IH (concat df (DataFrame rows1)) tmp).
      destruct (map_result (format_values NODES node_tag)
                  (List.concat (map chunk_of idxs))) as [rows2|e]; cbn [bind].
      * destruct IH as (df' & Hread & Hrows). exists df'. split; [exact Hread|].
        rewrite Hrows. unfold concat.
        rewrite map_app. unfold DataFrame.
        rewrite (combine_seq_snd rows1 0), <- app_assoc. reflexivity.
      * intros Hfresh. apply IH. intros j Hj. apply Hfresh. now right.
    + intros Hfresh. rewrite Hfresh by left. reflexivity.
Qed.

End Store.

Section TableBuilder.

Context `{E : Externals}.
Variable NODES : template.
Variable node_tag : string.

Lemma DataFrame_rows (rows : list row) : map snd (DataFrame rows) = rows.
Proof. apply combine_seq_snd. Qed.

Lemma DataFrame_labels (rows : list row) :
  map fst (DataFrame rows) = seq 0 (length (DataFrame rows)).
Proof.
  unfold DataFrame. rewrite combine_seq_length. apply combine_seq_fst.
Qed.

Lemma column_rows col (df : frame) :
  column col df = map (fun r : row => r !! col) (map snd df).
Proof. unfold column. now rewrite map_map. Qed.

(** Sorting and renumbering only look at the rows, not at their labels. *)
Lemma sort_then_reset col (df : frame) :
  (let! sorted := sort_values col df in Ok (reset_index sorted))
  = table_of_rows col (map snd df).
Proof.
  unfold sort_values, table_of_rows, has_column.
  rewrite column_rows.
  destruct (existsb _ _); [|reflexivity].
  destruct (argsort _) as [indexer|e]; cbn [bind]; [|reflexivity].
  f_equal. unfold reset_index, take_rows, DataFrame.
  rewrite <- (omap_lookup_fmap snd df indexer). now rewrite length_map.
Qed.

(** What [create_dataframe] returns, by the files the parent finds. *)
Lemma create_dataframe_found (data : list element) (nprocs : nat) (tmp : store) :
  (1 <= nprocs)%nat ->
  (create_dataframe NODES data node_tag nprocs tmp).1
  = let nodes := get_nodes data node_tag in
    let chunksize := ceil_div (length nodes) nprocs in
    let! df :=
      gather []
        (map (fun i =>
                found NODES node_tag tmp (export_name node_tag i)
                  (slice nodes (chunksize * i) (chunksize * (i + 1))))
             (seq 0 nprocs)) in
    let! date_col := date_column NODES node_tag in
    let! df := sort_values date_col df in
    Ok (reset_index df).
Proof.
  intros Hn. unfold create_dataframe, start_workers.
  destruct (nprocs =? 0)%nat eqn:H0; [apply Nat.eqb_eq in H0; lia|].
  cbv zeta.
  pose proof (read_started NODES node_tag
                (fun i => slice (get_nodes data node_tag)
                            (ceil_div (length (get_nodes data node_tag)) nprocs * i)
                            (ceil_div (length (get_nodes data node_tag)) nprocs * (i + 1)))
                (seq 0 nprocs) (NoDup_seq 0 nprocs) [] tmp) as Hread.
  cbv beta in Hread.
  destruct (read_pickles _ _ _) as [df tmp'] eqn:Hr.
  cbn [fst] in *. now rewrite Hread.
Qed.

(** [create_dataframe] as a function of the formatted records, for any
    positive number of workers: when every record is formatted, whatever
    'tmp' holds; when one raises, if no pickle of the category is left. *)
Lemma create_dataframe_rows (data : list element) (nprocs : nat) (tmp : store) :
  (1 <= nprocs)%nat ->
  match map_result (format_values NODES node_tag) (get_nodes data node_tag) with
  | Ok rows =>
      (create_dataframe NODES data node_tag nprocs tmp).1
      = let! col := date_column NODES node_tag in table_of_rows col rows
  | Raise _ =>
      no_leftover node_tag nprocs tmp ->
      (create_dataframe NODES data node_tag nprocs tmp).1 = Raise FileNotFoundError
  end.
Proof.
  intros Hn. rewrite (create_dataframe_found data nprocs tmp Hn). cbv zeta.
  pose proof (gather_chunks NODES node_tag
                (fun i => slice (get_nodes data node_tag)
                            (ceil_div (length (get_nodes data node_tag)) nprocs * i)
                            (ceil_div (length (get_nodes data node_tag)) nprocs * (i + 1)))
                (seq 0 nprocs) [] tmp) as Hread.
  cbv beta in Hread.
  change (map (fun i => slice (get_nodes data node_tag)
                          (ceil_div (length (get_nodes data node_tag)) nprocs * i)
                          (ceil_div (length (get_nodes data node_tag)) nprocs * (i + 1)))
              (seq 0 nprocs))
    with (chunks (get_nodes data node_tag) nprocs) in Hread.
  rewrite (chunks_concat _ _ Hn) in Hread.
  destruct (map_result (format_values NODES node_tag) (get_nodes data node_tag))
    as [rows|e].
  - destruct Hread as (df & -> & Hrows). cbn [bind map app] in *.
    destruct (date_column NODES node_tag) as [col|e]; cbn [bind]; [|reflexivity].
    rewrite <- Hrows. apply sort_then_reset.
  - intros Hfresh. rewrite Hread; [reflexivity|].
    intros i Hi. apply Hfresh. apply elem_of_seq in Hi. lia.
Qed.

End TableBuilder.

Section InsertionSort.

Variable before : option Z -> option Z -> bool.
Hypothesis before_le : forall a b, before a b = true -> key_le a b.
Hypothesis not_before_le : forall a b, before a b = false -> key_le b a.

Lemma insert_permutation x l : Permutation (Reference.insert before x l) (x :: l).
Proof.
  induction l as [|y l IH]; cbn [Reference.insert]; [reflexivity|].
  destruct (before x.1 y.1); [reflexivity|].
  rewrite IH. apply perm_swap.
Qed.

Lemma isort_permutation l : Permutation (Reference.isort before l) l.
Proof.
  induction l as [|x l IH]; cbn; [reflexivity|].
  rewrite insert_permutation. now apply perm_skip.
Qed.

Lemma insert_sorted x l :
  Sorted key_le (map fst l) -> Sorted key_le (map fst (Reference.insert before x l)).
Proof.
  induction l as [|y l IH]; intros Hs; cbn [Reference.insert map].
  - repeat constructor.
  - destruct (before x.1 y.1) eqn:Hb; cbn [map].
    + constructor; [exact Hs|]. constructor. apply before_le, Hb.
    + apply Sorted_inv in Hs as [Hs Hhd]. constructor; [apply IH, Hs|].
      destruct l as [|z l]; cbn [Reference.insert map].
      * constructor. apply not_before_le, Hb.
      * destruct (before x.1 z.1); cbn [map]; constructor.
        -- apply not_before_le, Hb.
        -- now apply HdRel_inv in Hhd.
Qed.

Lemma isort_sorted l : Sorted key_le (map fst (Reference.isort before l)).
Proof.
  induction l as [|x l IH]; cbn; [constructor|]. apply insert_sorted, IH.
Qed.

Lemma positions_of_pairs (col : list (option value)) :
  map snd (imap (fun i o => (key_of o, i)) col) = seq 0 (length col).
Proof.
  apply list_eq. intros i.
  change (map snd (imap (fun i o => (key_of o, i)) col))
    with (snd <$> imap (fun i o => (key_of o, i)) col).
  rewrite list_lookup_fmap, list_lookup_imap.
  destruct (col !! i) as [o|] eqn:Ho; cbn.
  - symmetry. apply lookup_seq. split; [reflexivity|]. eapply lookup_lt_Some, Ho.
  - symmetry. apply lookup_seq_ge. now apply lookup_ge_None.
Qed.

Lemma keys_of_pairs (col : list (option value)) (l : list (option Z * nat)) :
  Forall (fun p => exists o, col !! p.2 = Some o /\ key_of o = p.1) l ->
  map key_of (omap (fun i => col !! i) (map snd l)) = map fst l.
Proof.
  induction 1 as [|p l (o & Ho & Hk) _ IH]; [reflexivity|].
  cbn [map].
  change (omap ?f (?a :: ?r))
    with (match f a with Some y => y :: omap f r | None => omap f r end).
  cbv beta. rewrite Ho. cbn [map]. now rewrite Hk, IH.
Qed.

Lemma argsort_by_spec :
  ArgsortSpec {| float_of_text := Reference.decimal;
                 dateutil_parse := Reference.date_text;
                 unicodedata_normalize := Reference.normalize;
                 argsort := Reference.argsort_by before |}.
Proof.
  split; cbn [argsort]; unfold Reference.argsort_by.
  - intros col indexer H. destruct (comparable col); [|discriminate].
    injection H as <-.
    rewrite <- positions_of_pairs.
    apply Permutation_map, isort_permutation.
  - intros col indexer _ H. destruct (comparable col); [|discriminate].
    injection H as <-.
    rewrite keys_of_pairs; [apply isort_sorted|].
    eapply Permutation_Forall; [symmetry; apply isort_permutation|].
    apply Forall_forall. intros p Hp.
    apply list_elem_of_lookup in Hp as [i Hi].
    rewrite list_lookup_imap in Hi.
    destruct (col !! i) as [o|] eqn:Ho; [|discriminate].
    injection Hi as <-. cbn. eauto.
  - intros col ->. eauto.
Qed.

End InsertionSort.

Lemma key_leb_le a b : key_leb a b = true -> key_le a b.
Proof.
  destruct a as [x|], b as [y|]; cbn; try easy. apply Z.leb_le.
Qed.

Lemma key_leb_total a b : key_leb a b = false -> key_le b a.
Proof.
  destruct a as [x|], b as [y|]; cbn; try easy. intros H. apply Z.leb_gt in H. lia.
Qed.

Lemma reference_argsort_spec : ArgsortSpec Reference.externals.
Proof. apply (argsort_by_spec key_leb key_leb_le key_leb_total). Qed.

Section Tables.

Context `{E : Externals}.

Lemma map_result_length {A B} (f : A -> result B) (l : list A) (r : list B) :
  map_result f l = Ok r -> length r = length l.
Proof.
  revert r. induction l as [|x l IH]; intros r; cbn [map_result].
  - intros H. now injection H as <-.
  - destruct (f x) as [y|e]; cbn [bind]; [|discriminate].
    destruct (map_result f l) as [r'|e]; cbn [bind]; [|discriminate].
    intros H. injection H as <-. cbn. f_equal. now apply IH.
Qed.

Lemma map_result_raises {A B} (f : A -> result B) (l : list A) (x : A) (e : exn) :
  x ∈ l -> f x = Raise e -> exists e', map_result f l = Raise e'.
Proof.
  intros Hin He. induction Hin as [x l|x y l _ IH]; cbn [map_result].
  - rewrite He. eauto.
  - destruct (f y) as [z|e1]; cbn [bind]; [|eauto].
    destruct (IH He) as [e' ->]. eauto.
Qed.

Lemma map_result_firstn {A B} (f : A -> result B) (l : list A) (r : list B) (n : nat) :
  map_result f l = Ok r -> map_result f (firstn n l) = Ok (firstn n r).
Proof.
  revert l r. induction n as [|n IH]; intros l r; [reflexivity|].
  destruct l as [|x l]; cbn [map_result firstn].
  - intros H. now injection H as <-.
  - destruct (f x) as [y|e]; cbn [bind]; [|discriminate].
    destruct (map_result f l) as [r'|e] eqn:Hl; cbn [bind]; [|discriminate].
    intros H. injection H as <-. cbn [firstn]. now rewrite (IH l r' Hl).
Qed.

Lemma map_result_skipn {A B} (f : A -> result B) (l : list A) (r : list B) (n : nat) :
  map_result f l = Ok r -> map_result f (skipn n l) = Ok (skipn n r).
Proof.
  revert l r. induction n as [|n IH]; intros l r; [trivial|].
  destruct l as [|x l]; cbn [map_result skipn].
  - intros H. now injection H as <-.
  - destruct (f x) as [y|e]; cbn [bind]; [|discriminate].
    destruct (map_result f l) as [r'|e] eqn:Hl; cbn [bind]; [|discriminate].
    intros H. injection H as <-. cbn [skipn]. now apply IH.
Qed.

Lemma map_result_slice {A B} (f : A -> result B) (l : list A) (r : list B) (a b : nat) :
  map_result f l = Ok r -> map_result f (slice l a b) = Ok (slice r a b).
Proof.
  intros H. unfold slice. now apply map_result_firstn, map_result_skipn.
Qed.

(** The pickle that a worker leaves for the parent. *)
Lemma start_workers_pickle (NODES : template) (node_tag : string)
    (nodes : list (gmap string string)) (chunksize nprocs : nat) (tmp : store)
    (i : nat) :
  (i < nprocs)%nat ->
  start_workers NODES node_tag nodes chunksize nprocs tmp !! export_name node_tag i
  = found NODES node_tag tmp (export_name node_tag i)
      (slice nodes (chunksize * i) (chunksize * (i + 1))).
Proof.
  intros Hi. unfold start_workers.
  replace nprocs with (i + (1 + (nprocs - i - 1)))%nat by lia.
  rewrite !seq_app, !fold_left_app. cbn [seq fold_left]. rewrite Nat.add_0_l.
  rewrite (workers_other NODES node_tag
             (fun i => slice nodes (chunksize * i) (chunksize * (i + 1)))).
  - rewrite (worker_found NODES node_tag
               (fun i => slice nodes (chunksize * i) (chunksize * (i + 1)))).
    unfold found. destruct (map_result _ _); [reflexivity|].
    apply (workers_other NODES node_tag
             (fun i => slice nodes (chunksize * i) (chunksize * (i + 1)))).
    intros j Hj Heq. apply export_name_inj in Heq as ->.
    apply elem_of_seq in Hj. lia.
  - intros j Hj Heq. apply export_name_inj in Heq as ->.
    apply elem_of_seq in Hj. lia.
Qed.

(** A table that is returned by a call that reads its own pickles is the
    table of the formatted records. *)
Lemma create_dataframe_built (NODES : template) (data : list element)
    (node_tag : string) (nprocs : nat) (tmp : store) (df : frame) :
  reads_its_own NODES data node_tag nprocs tmp ->
  (create_dataframe NODES data node_tag nprocs tmp).1 = Ok df ->
  exists col rows,
    date_column NODES node_tag = Ok col
    /\ map_result (format_values NODES node_tag) (get_nodes data node_tag) = Ok rows
    /\ table_of_rows col rows = Ok df.
Proof.
  intros Hown Hdf.
  assert (Hn : (1 <= nprocs)%nat).
  { destruct nprocs; [discriminate Hdf | lia]. }
  pose proof (create_dataframe_rows NODES node_tag data nprocs tmp Hn) as Hrows.
  destruct (map_result (format_values NODES node_tag) (get_nodes data node_tag))
    as [rows|e] eqn:Hmap.
  - rewrite Hrows in Hdf.
    destruct (date_column NODES node_tag) as [col|e]; [|discriminate].
    exists col, rows. auto.
  - destruct Hown as [[rows Hok] | Hfresh]; [congruence|].
    rewrite (Hrows Hfresh) in Hdf. discriminate.
Qed.

(** What sorting and renumbering make of the rows, under the contract of
    the sort. *)
Lemma table_of_rows_sorted (spec : ArgsortSpec E) (col : string)
    (rows : list row) (df : frame) :
  table_of_rows col rows = Ok df ->
  Permutation (map snd df) rows
  /\ map fst df = seq 0 (length df)
  /\ (comparable (column col df) = true ->
      Sorted key_le (map key_of (column col df))).
Proof.
  unfold table_of_rows. intros Hdf.
  destruct (existsb _ _); [|discriminate].
  destruct (argsort (map (fun r : row => r !! col) rows)) as [indexer|e] eqn:Hsort;
    [|discriminate].
  cbn [bind] in Hdf. injection Hdf as <-.
  pose proof (argsort_permutes E spec _ _ Hsort) as Hperm.
  rewrite length_map in Hperm.
  repeat split.
  - rewrite DataFrame_rows. rewrite Hperm. now rewrite omap_lookup_seq.
  - apply DataFrame_labels.
  - rewrite column_rows, DataFrame_rows, omap_lookup_fmap. intros Hc.
    apply (argsort_sorts E spec); [|exact Hsort].
    rewrite <- Hc. unfold comparable.
    assert (Hp : Permutation
                   (omap (fun i => map (fun r : row => r !! col) rows !! i) indexer)
                   (map (fun r : row => r !! col) rows)).
    { rewrite Hperm. rewrite <- (length_map (fun r : row => r !! col) rows).
      now rewrite omap_lookup_seq. }
    now rewrite !(forallb_permutation _ _ _ Hp).
Qed.

(** A table that was built has as many rows as the category has records. *)
Lemma table_length (spec : ArgsortSpec E) (NODES : template) (data : list element)
    (node_tag : string) (nprocs : nat) (tmp : store) (df : frame) :
  reads_its_own NODES data node_tag nprocs tmp ->
  (create_dataframe NODES data node_tag nprocs tmp).1 = Ok df ->
  length df = length (get_nodes data node_tag).
Proof.
  intros Hown Hdf.
  destruct (create_dataframe_built _ _ _ _ _ _ Hown Hdf) as (col & rows & _ & Hrows & Ht).
  destruct (table_of_rows_sorted spec _ _ _ Ht) as (Hperm & _).
  rewrite <- (length_map snd df), (Permutation_length Hperm).
  apply (map_result_length _ _ _ Hrows).
Qed.

(** C2, as the code has it. When every record is formatted, then with
    any positive number of workers and whatever the directory 'tmp' holds:
    worker [i] pickles the rows of the records [chunksize * i] up to
    [chunksize * (i + 1)], where
    [chunksize] is [ceil(len / N)]; these chunks of rows make up the rows of
    all the records in their order; the table is what sorting by the date
    column and renumbering make of these rows; and so it is the table of a
    single worker. When a record is not formatted and no pickle of the
    category is left in 'tmp', the call raises [FileNotFoundError] with
    any number of workers. *)
Theorem create_dataframe_any_workers :
  forall (NODES : template) (data : list element) (node_tag : string)
         (nprocs : nat) (tmp : store),
    (1 <= nprocs)%nat ->
    let nodes := get_nodes data node_tag in
    let chunksize := ceil_div (length nodes) nprocs in
    (forall rows,
        map_result (format_values NODES node_tag) nodes = Ok rows ->
        (forall i, (i < nprocs)%nat ->
           start_workers NODES node_tag nodes chunksize nprocs tmp
             !! export_name node_tag i
           = Some (DataFrame (slice rows (chunksize * i) (chunksize * (i + 1)))))
        /\ List.concat
             (map (fun i => slice rows (chunksize * i) (chunksize * (i + 1)))
                  (seq 0 nprocs)) = rows
        /\ (create_dataframe NODES data node_tag nprocs tmp).1
           = (let! col := date_column NODES node_tag in table_of_rows col rows)
        /\ forall tmp' : store,
             (create_dataframe NODES data node_tag 1 tmp').1
             = (create_dataframe NODES data node_tag nprocs tmp).1)
    /\ (forall e,
          map_result (format_values NODES node_tag) nodes = Raise e ->
          no_leftover node_tag nprocs tmp ->
          (create_dataframe NODES data node_tag nprocs tmp).1
          = Raise FileNotFoundError).
Proof.
  intros NODES data node_tag nprocs tmp Hn nodes chunksize. split.
  - intros rows Hrows. repeat split.
    + intros i Hi. rewrite (start_workers_pickle _ _ _ _ _ _ _ Hi). unfold found.
      now rewrite (map_result_slice _ _ _ _ _ Hrows).
    + unfold chunksize. rewrite <- (map_result_length _ _ _ Hrows).
      apply (chunks_concat rows nprocs Hn).
    + pose proof (create_dataframe_rows NODES node_tag data nprocs tmp Hn) as H.
      fold nodes in H. now rewrite Hrows in H.
    + intros tmp'.
      pose proof (create_dataframe_rows NODES node_tag data nprocs tmp Hn) as H.
      pose proof (create_dataframe_rows NODES node_tag data 1 tmp' (le_n 1)) as H1.
      fold nodes in H, H1. rewrite Hrows in H, H1. now rewrite H, H1.
  - intros e He Hfresh.
    pose proof (create_dataframe_rows NODES node_tag data nprocs tmp Hn) as H.
    fold nodes in H. rewrite He in H. now apply H.
Qed.


End Tables.

Lemma rows_of_built (E : Externals) NODES data node_tag :
  match map_result (@format_values E NODES node_tag) (get_nodes data node_tag) with
  | Ok _ => true
  | Raise _ => false
  end = true ->
  map_result (@format_values E NODES node_tag) (get_nodes data node_tag)
  = Ok (rows_of E NODES data node_tag).
Proof.
  unfold rows_of.
  destruct (map_result _ _); [reflexivity | discriminate].
Qed.

Lemma table_for_built (E : Externals) data node_tag nprocs tmp :
  match (@create_dataframe E sample_template data node_tag nprocs tmp).1 with
  | Ok _ => true
  | Raise _ => false
  end = true ->
  (@create_dataframe E sample_template data node_tag nprocs tmp).1
  = Ok (table_for E data node_tag nprocs tmp).
Proof.
  unfold table_for.
  destruct (@create_dataframe E sample_template data node_tag nprocs tmp).1;
    [reflexivity | discriminate].
Qed.

Lemma no_leftover_empty node_tag nprocs : no_leftover node_tag nprocs ∅.
Proof. intros i _. apply lookup_empty. Qed.

Lemma reads_its_own_empty (E : Externals) NODES data node_tag nprocs :
  @reads_its_own E NODES data node_tag nprocs ∅.
Proof. right. apply no_leftover_empty. Qed.

Lemma sample_table_built :
  (@create_dataframe Reference.externals sample_template sample_data "Record" 2 ∅).1
  = Ok (table_for Reference.externals sample_data "Record" 2 ∅).
Proof. apply table_for_built. vm_compute. reflexivity. Qed.

(** C2, as the claim has it, fails where a record is not formatted and an
    earlier call has left pickles in 'tmp'. The earlier call, with three
    workers, raises and leaves the pickles of its second and third worker.
    The later call, over two workouts of which the second is not
    formatted, then raises with one worker, and with two workers returns a
    table: the workout of its first worker and the workout that the earlier
    call left under the name of its second. *)
Lemma stale_pickle_shows_worker_count :
  (@create_dataframe Reference.externals sample_template earlier_export
     "Workout" 3 ∅).1 = Raise FileNotFoundError
  /\ (@create_dataframe Reference.externals sample_template later_export
        "Workout" 1 left_behind).1 = Raise FileNotFoundError
  /\ (@create_dataframe Reference.externals sample_template later_export
        "Workout" 2 left_behind).1
     = Ok (table_for Reference.externals later_export "Workout" 2 left_behind)
  /\ map (fun r : nat * row => r.2 !! "source_name")
       (table_for Reference.externals later_export "Workout" 2 left_behind)
     = [Some (VStr "Earlier"); Some (VStr "Later")].
Proof.
  split; [vm_compute; reflexivity|].
  split; [vm_compute; reflexivity|].
  split; [apply table_for_built; vm_compute; reflexivity|].
  vm_compute. reflexivity.
Qed.



Lemma create_dataframe_any_workers_witness :
  (forall i, (i < 3)%nat ->
     @start_workers Reference.externals sample_template "Record"
       (get_nodes sample_data "Record")
       (ceil_div (length (get_nodes sample_data "Record")) 3) 3 left_behind
       !! export_name "Record" i
     = Some (DataFrame
               (slice (rows_of Reference.externals sample_template sample_data "Record")
                  (ceil_div (length (get_nodes sample_data "Record")) 3 * i)
                  (ceil_div (length (get_nodes sample_data "Record")) 3 * (i + 1)))))
  /\ (@create_dataframe Reference.externals sample_template sample_data
        "Record" 3 left_behind).1
     = (let! col := date_column sample_template "Record" in
        @table_of_rows Reference.externals col
          (rows_of Reference.externals sample_template sample_data "Record"))
  /\ (@create_dataframe Reference.externals sample_template sample_data
        "Record" 1 ∅).1
     = (@create_dataframe Reference.externals sample_template sample_data
          "Record" 3 left_behind).1.
Proof.
  destruct (@create_dataframe_any_workers Reference.externals sample_template
              sample_data "Record" 3 left_behind ltac:(lia)) as [Hrows _].
  destruct (Hrows (rows_of Reference.externals sample_template sample_data "Record"))
    as (Hpickles & _ & Htable & Hone).
  - apply rows_of_built. vm_compute. reflexivity.
  - split; [exact Hpickles|]. split; [exact Htable|]. apply Hone.
Defined.

(** * Further properties of the parser *)

Section RecordFormatter.

Context `{E : Externals}.

Lemma fold_insert_other (pairs : list (string * value)) (acc : row) k :
  k ∉ map fst pairs ->
  fold_left (fun (m : row) (kv : string * value) => <[kv.1 := kv.2]> m) pairs acc !! k
  = acc !! k.
Proof.
  revert acc. induction pairs as [|p pairs IH]; intros acc Hk; [reflexivity|].
  cbn [fold_left]. cbn [map] in Hk. apply not_elem_of_cons in Hk as [Hne Hk].
  rewrite IH by exact Hk. apply lookup_insert_ne. congruence.
Qed.

Lemma fold_insert_lookup (pairs : list (string * value)) (acc : row) k v :
  NoDup (map fst pairs) -> (k, v) ∈ pairs ->
  fold_left (fun (m : row) (kv : string * value) => <[kv.1 := kv.2]> m) pairs acc !! k
  = Some v.
Proof.
  revert acc. induction pairs as [|p pairs IH]; intros acc Hnd Hin.
  - now apply elem_of_nil in Hin.
  - cbn [map] in Hnd. apply NoDup_cons in Hnd as [Hp Hnd]. cbn [fold_left].
    apply elem_of_cons in Hin as [<- | Hin].
    + rewrite fold_insert_other by exact Hp. cbn. apply lookup_insert_eq.
    + now apply IH.
Qed.

Lemma present_values_all (attributes : gmap string string) names :
  Forall (fun n => is_Some (attributes !! n)) names ->
  combine names (present_values attributes names)
  = map (fun n => (n, default EmptyString (attributes !! n))) names.
Proof.
  induction 1 as [|n names [v Hv] _ IH]; [reflexivity|].
  unfold present_values in *.
  change (omap ?f (?a :: ?r))
    with (match f a with Some y => y :: omap f r | None => omap f r end).
  cbv beta. rewrite Hv. cbn [combine map]. now rewrite IH, Hv.
Qed.

(** A round of the loop that returns has merged some dict into the row, and
    left in [d] either that dict or a used-up [map] object. *)
Lemma format_group_merges node attributes st group st' :
  format_group node attributes st group = Ok st' ->
  exists now later,
    st' = merge st now later /\ (later = ∅ \/ later = now).
Proof.
  destruct group as [ftype names]. unfold format_group.
  repeat
    (match goal with
     | |- context [if ?b then _ else _] => destruct b
     | |- context [bind ?r _] => destruct r; cbn [bind]
     | |- context [match ?l with [] => _ | _ :: _ => _ end] => destruct l
     end);
    intros H; try discriminate H; injection H as <-; eauto 10.
Qed.

Lemma format_group_settles node attributes st group st' :
  format_group node attributes st group = Ok st' -> settled st'.
Proof.
  intros H. apply format_group_merges in H as (now & later & -> & Hl).
  exists later. split; [reflexivity|]. cbn [merge formatted_vals].
  destruct Hl as [-> | ->]; [apply map_empty_subseteq | apply map_union_subseteq_l].
Qed.

Lemma format_groups_app node attributes st groups1 groups2 :
  format_groups node attributes st (groups1 ++ groups2)
  = let! st1 := format_groups node attributes st groups1 in
    format_groups node attributes st1 groups2.
Proof.
  revert st. induction groups1 as [|g groups1 IH]; intros st; [reflexivity|].
  cbn [app format_groups].
  destruct (format_group node attributes st g); cbn [bind]; [apply IH | reflexivity].
Qed.

Lemma format_groups_settles node attributes st groups st' :
  groups <> [] ->
  format_groups node attributes st groups = Ok st' -> settled st'.
Proof.
  revert st. induction groups as [|g groups IH]; intros st Hne H; [congruence|].
  cbn [format_groups] in H.
  destruct (format_group node attributes st g) as [st1|] eqn:Hg; [|discriminate].
  cbn [bind] in H. destruct groups as [|g' groups].
  - injection H as <-. eapply format_group_settles, Hg.
  - eapply IH; [discriminate | exact H].
Qed.

Lemma format_groups_keys node attributes st groups st' :
  format_groups node attributes st groups = Ok st' ->
  forall k, is_Some (formatted_vals st !! k) -> is_Some (formatted_vals st' !! k).
Proof.
  revert st. induction groups as [|g groups IH]; intros st H k Hk.
  - now injection H as <-.
  - cbn [format_groups] in H.
    destruct (format_group node attributes st g) as [st1|] eqn:Hg; [|discriminate].
    cbn [bind] in H. apply (IH st1 H).
    apply format_group_merges in Hg as (now & later & -> & _).
    cbn [merge formatted_vals]. apply lookup_union_is_Some. now right.
Qed.

Lemma present_values_none (attributes : gmap string string) names :
  Forall (fun n => attributes !! n = None) names ->
  present_values attributes names = [].
Proof.
  induction 1 as [|n names Hn _ IH]; [reflexivity|].
  unfold present_values in *.
  change (omap ?f (?a :: ?r))
    with (match f a with Some y => y :: omap f r | None => omap f r end).
  cbv beta. now rewrite Hn.
Qed.

Lemma format_group_device node attributes st names :
  format_group node attributes st ("device", Names names)
  = match map format_device (present_values attributes names) with
    | first :: _ => Ok (merge st (strs first) (strs first))
    | [] =>
        let! again := of_option UnboundLocalError (d st) in
        Ok (merge st again again)
    end.
Proof. reflexivity. Qed.

Lemma format_group_pattern node node' attributes st group :
  pattern node = pattern node' ->
  format_group node attributes st group = format_group node' attributes st group.
Proof. intros Hp. unfold format_group. now rewrite Hp. Qed.

Lemma format_groups_pattern node node' attributes st groups :
  pattern node = pattern node' ->
  format_groups node attributes st groups = format_groups node' attributes st groups.
Proof.
  intros Hp. revert st. induction groups as [|g groups IH]; intros st; [reflexivity|].
  cbn [format_groups]. rewrite (format_group_pattern node node' _ _ _ Hp).
  destruct (format_group node' attributes st g); cbn [bind]; [apply IH | reflexivity].
Qed.

(** X1. The keys an initial part of the rule-groups gives are keys of the
    finished row: a later group overwrites values, it never removes a
    key. *)
Theorem format_values_keeps_keys :
  forall (NODES : template) (node_tag : string) (node : node_format)
         (attributes : gmap string string) groups1 groups2 (values : row),
    NODES !! node_tag = Some node ->
    formats node = groups1 ++ groups2 ->
    format_values NODES node_tag attributes = Ok values ->
    exists values1,
      format_values
        (<[node_tag := {| pattern := pattern node; formats := groups1 |}]> NODES)
        node_tag attributes = Ok values1
      /\ forall k, is_Some (values1 !! k) -> is_Some (values !! k).
Proof.
  intros NODES node_tag node attributes groups1 groups2 values Hnode Hf Hv.
  unfold format_values, template in *. rewrite lookup_insert_eq. rewrite Hnode in Hv.
  cbn [of_option bind formats] in *. rewrite Hf, format_groups_app in Hv.
  rewrite (format_groups_pattern _ node) by reflexivity.
  destruct (format_groups node attributes _ groups1) as [st1|]; [|discriminate].
  cbn [bind] in *.
  destruct (format_groups node attributes st1 groups2) as [st2|] eqn:H2; [|discriminate].
  cbn [bind] in Hv. injection Hv as <-.
  exists (formatted_vals st1). split; [reflexivity|].
  apply (format_groups_keys _ _ _ _ _ H2).
Qed.

(** X2. A device group none of whose attributes the record has: as the first
    group it raises [UnboundLocalError]; after another group the record is
    formatted as if the template had no such group. *)
Theorem absent_device_group :
  forall (NODES : template) (node_tag : string) (node : node_format)
         (attributes : gmap string string) groups1 names groups2,
    NODES !! node_tag = Some node ->
    formats node = groups1 ++ ("device", Names names) :: groups2 ->
    Forall (fun n => attributes !! n = None) names ->
    (groups1 = [] ->
     format_values NODES node_tag attributes = Raise UnboundLocalError)
    /\ (groups1 <> [] ->
        format_values NODES node_tag attributes
        = format_values
            (<[node_tag := {| pattern := pattern node;
                              formats := groups1 ++ groups2 |}]> NODES)
            node_tag attributes).
Proof.
  intros NODES node_tag node attributes groups1 names groups2 Hnode Hf Habs.
  unfold format_values, template in *. rewrite lookup_insert_eq, Hnode.
  cbn [of_option bind formats]. rewrite Hf. split.
  - intros ->. cbn [app format_groups].
    rewrite format_group_device, (present_values_none _ _ Habs). reflexivity.
  - intros Hne.
    rewrite (format_groups_pattern
               {| pattern := pattern node; formats := groups1 ++ groups2 |} node)
      by reflexivity.
    rewrite !format_groups_app.
    destruct (format_groups node attributes _ groups1) as [st1|] eqn:H1;
      cbn [bind]; [|reflexivity].
    cbn [format_groups].
    rewrite format_group_device, (present_values_none _ _ Habs). cbn [map].
    destruct (format_groups_settles _ _ _ _ _ Hne H1) as (later & Hd & Hsub).
    rewrite Hd. cbn [of_option bind].
    replace (merge st1 later later) with st1; [reflexivity|].
    unfold merge. rewrite (map_subseteq_union _ _ Hsub).
      destruct st1 as [fv dd]. cbn in *. now subst.
Qed.

Lemma format_group_plain node attributes st names :
  format_group node attributes st ("no_format", Names names)
  = Ok (merge st
          (dict_of_pairs
             (map (fun p : string * string => (p.1, VStr p.2))
                (map format_no_format
                   (combine names (present_values attributes names))))) ∅)
  /\ format_group node attributes st ("string", Names names)
     = Ok (merge st
             (dict_of_pairs
                (map (fun p : string * string => (p.1, VStr p.2))
                   (map format_string
                      (combine names (present_values attributes names))))) ∅).
Proof. split; reflexivity. Qed.

(** X3. When the record has every attribute that the last rule-group, of
    kind "no_format" or "string", declares, and the snake-cased names are
    distinct, each value is in the row under the snake-cased name of its own
    attribute (normalized, for "string"). *)
Theorem present_attributes_keep_their_names :
  forall (NODES : template) (node_tag : string) (node : node_format)
         (attributes : gmap string string) groups1 ftype names (values : row),
    NODES !! node_tag = Some node ->
    formats node = groups1 ++ [(ftype, Names names)] ->
    ftype = "no_format" \/ ftype = "string" ->
    Forall (fun n => is_Some (attributes !! n)) names ->
    NoDup (map underscore names) ->
    format_values NODES node_tag attributes = Ok values ->
    forall n v,
      n ∈ names -> attributes !! n = Some v ->
      values !! underscore n
      = Some (VStr (if String.eqb ftype "string"
                    then unicodedata_normalize NFKD v else v)).
Proof.
  intros NODES node_tag node attributes groups1 ftype names values
    Hnode Hf Hkind Hall Hnd Hv n v Hn Hnv.
  unfold format_values, template in *. rewrite Hnode in Hv.
  cbn [of_option bind] in Hv. rewrite Hf, format_groups_app in Hv.
  destruct (format_groups node attributes _ groups1) as [st1|]; [|discriminate].
  cbn [bind format_groups] in Hv.
  destruct (format_group_plain node attributes st1 names) as [Hplain Hstring].
  rewrite (present_values_all _ _ Hall), !map_map in Hplain, Hstring.
  cbn [format_no_format format_string fst snd] in Hplain, Hstring.
  destruct Hkind as [-> | ->]; [rewrite Hplain in Hv | rewrite Hstring in Hv];
    cbn [bind] in Hv; injection Hv as <-; cbn [merge formatted_vals];
    apply lookup_union_Some_l; apply fold_insert_lookup;
    try (rewrite map_map; exact Hnd);
    apply list_elem_of_fmap; exists n; (split; [|exact Hn]);
    cbn; now rewrite Hnv.
Qed.

End RecordFormatter.

(** ** The standard-quantity formatter: the names it gives *)

(** X4. The column names of the standard-quantity formatter: whatever the
    input, a pair that it returns is named by one of five names, each
    carrying its unit. *)
Theorem format_standard_names `{E : Externals} :
  forall (inputs : string * scalar * string) (col : string) (x : float),
    format_standard inputs = Ok (col, x) ->
    In col ["duration_min"; "distance_km"; "distance_kcal";
            "energy_burned_km"; "energy_burned_kcal"].
Proof.
  intros [[name st_val] unit_val] col x. rewrite format_standard_unfold. cbv zeta.
  unfold list_in. cbn [existsb]. rewrite !orb_false_r.
  destruct (String.eqb (standard_key name) "duration") eqn:Hd.
  - apply String.eqb_eq in Hd as ->.
    destruct (String.eqb unit_val "min"); [|destruct (String.eqb unit_val "sec")];
      try discriminate;
      (destruct (py_float st_val); cbn [bind]; [|discriminate]);
      intros H; injection H as <- _; cbn; tauto.
  - destruct (String.eqb (standard_key name) "distance" || String.eqb (standard_key name) "energy_burned") eqn:Hk;
      [|discriminate].
    assert (Hkey : standard_key name = "distance" \/ standard_key name = "energy_burned").
    { apply orb_true_iff in Hk as [Hk | Hk]; apply String.eqb_eq in Hk; tauto. }
    destruct (String.eqb unit_val "km") eqn:Hkm; cbn [orb].
    { apply String.eqb_eq in Hkm as ->.
      destruct (py_float st_val); cbn [bind]; [|discriminate].
      intros H; injection H as <- _. destruct Hkey as [-> | ->]; cbn; tauto. }
    destruct (String.eqb unit_val "kcal") eqn:Hkcal; cbn [orb].
    { apply String.eqb_eq in Hkcal as ->.
      destruct (py_float st_val); cbn [bind]; [|discriminate].
      intros H; injection H as <- _. destruct Hkey as [-> | ->]; cbn; tauto. }
    destruct (String.eqb unit_val "m") eqn:Hm; cbn [orb].
    { apply String.eqb_eq in Hm as ->.
      destruct (py_float st_val); cbn [bind]; [|discriminate].
      intros H; injection H as <- _. destruct Hkey as [-> | ->]; cbn; tauto. }
    destruct (String.eqb unit_val "cal") eqn:Hcal; cbn [orb]; [|discriminate].
    apply String.eqb_eq in Hcal as ->.
    destruct (py_float st_val); cbn [bind]; [|discriminate].
    intros H; injection H as <- _. destruct Hkey as [-> | ->]; cbn; tauto.
Qed.

(** ** The device formatter: its keys *)

Lemma lower_char_not_upper c : Str.is_upper (Str.lower_char c) = false.
Proof. destruct c as [[] [] [] [] [] [] [] []]; reflexivity. Qed.

Lemma lower_not_upper s c :
  In c (list_ascii_of_string (Str.lower s)) -> Str.is_upper c = false.
Proof.
  induction s as [|a s IH]; cbn; [tauto|].
  intros [<- | Hin]; [apply lower_char_not_upper | now apply IH].
Qed.

Lemma lookup_first_in key pairs v :
  lookup_first key pairs = Some v -> (key, v) ∈ pairs.
Proof.
  induction pairs as [|[k w] pairs IH]; cbn [lookup_first]; [discriminate|].
  destruct (String.eqb k key) eqn:Hk.
  - apply String.eqb_eq in Hk as ->. intros H; injection H as ->. apply elem_of_cons. now left.
  - intros H. apply elem_of_cons. right. now apply IH.
Qed.

Lemma split_without_colon s :
  Str.contains ":" s = false ->
  Forall (fun p => Str.contains ":" p = false) (Str.split "," s).
Proof.
  induction s as [|c s IH]; intros Hc.
  - repeat constructor.
  - cbn in Hc. apply orb_false_iff in Hc as [Hc Hs]. rewrite andb_true_r in Hc.
    specialize (IH Hs). cbn [Str.split].
    destruct (Ascii.eqb c ","); [constructor; [reflexivity | exact IH]|].
    destruct (Str.split "," s) as [|w ws]; [repeat constructor; cbn; now rewrite Hc|].
    apply Forall_cons in IH as [Hw Hws]. constructor; [|exact Hws].
    cbn. now rewrite Hc, Hw.
Qed.

(** X5. The keys of the device formatter start with "device_" and have no
    upper-case letter; and a device string with no colon gives the empty
    dict. *)
Theorem format_device_keys :
  forall device_string : string,
    (forall key v,
       format_device device_string !! key = Some v ->
       Str.startswith "device_" key = true
       /\ forall c, In c (list_ascii_of_string key) -> Str.is_upper c = false)
    /\ (Str.contains ":" device_string = false -> format_device device_string = ∅).
Proof.
  intros device_string. split.
  - intros key v Hkv. unfold format_device in Hkv.
    rewrite <- (map_map clean_device_info
                  (fun p : string * string => {[ p.1 := p.2 ]})) in Hkv.
    rewrite chain_map_lookup in Hkv. apply lookup_first_in in Hkv.
    apply list_elem_of_fmap in Hkv as (component & Hc & _).
    injection Hc as -> _. split; [reflexivity|].
    intros c Hin.
    change ("device_" +:+ ?t)
      with (String "d" (String "e" (String "v" (String "i" (String "c"
             (String "e" (String "_" t))))))) in Hin.
    cbn [list_ascii_of_string In] in Hin.
    repeat (destruct Hin as [<- | Hin]; [reflexivity|]).
    eapply lower_not_upper, Hin.
  - intros Hc. unfold format_device.
    pose proof (split_without_colon device_string Hc) as Hall.
    induction Hall as [|p ps Hp _ IH]; [reflexivity|].
    rewrite filter_cons_False; [exact IH|]. now rewrite Hp.
Qed.

(** ** The date filter *)

Lemma ten_characters (s : string) :
  String.length s = 10 ->
  exists a b c d e f g h i j,
    s = String a (String b (String c (String d (String e (String f
          (String g (String h (String i (String j EmptyString))))))))).
Proof.
  intros H.
  do 10 (destruct s as [|? s]; [discriminate H|]).
  destruct s; [|discriminate H]. repeat eexists.
Qed.

Lemma search_date_found pos (date rest : string) :
  String.length date = 10 -> date_prefix date = true ->
  exists m, Re.search_from file_date_pattern false pos (date +:+ rest) = Some m
            /\ Re.group m 1 = date.
Proof.
  intros Hlen Hd.
  destruct (ten_characters date Hlen) as (a & b & c & d & e & f & g & h & i & j & ->).
  cbn [date_prefix] in Hd.
  do 9 (apply andb_prop in Hd as [Hd ?]).
  rewrite !append_cons, append_nil.
  cbn [Re.search_from Re.items file_date_pattern Re.match_items Re.charset_mem].
  repeat match goal with H : _ = true |- _ => rewrite H; clear H end.
  cbn [Re.match_items Re.charset_mem andb Nat.eqb].
  eexists. split; [reflexivity|].
  cbn [Re.group Re.m_groups Re.group_texts Re.groups file_date_pattern seq map nth
       Re.close_group Re.open_group Re.opened Re.closed Re.no_captures Re.assoc
       Nat.eqb].
  replace (S (S (S (S (S (S (S (S (S (S pos))))))))) - pos)%nat with 10%nat by lia.
  reflexivity.
Qed.

Lemma search_skips_before pos (before tail : string) :
  date_starts_in before tail = false ->
  Re.search_from file_date_pattern false pos (before +:+ tail)
  = Re.search_from file_date_pattern false (pos + String.length before) tail.
Proof.
  revert pos. induction before as [|c before IH]; intros pos Hb.
  - rewrite append_nil. cbn [String.length]. now rewrite Nat.add_0_r.
  - cbn [date_starts_in] in Hb. apply orb_false_iff in Hb as [Hhere Hb].
    rewrite append_cons in *. cbn [Re.search_from].
    rewrite match_date_pattern by exact Hhere.
    rewrite (IH (S pos) Hb). cbn [String.length]. f_equal. lia.
Qed.

(** X6. The date of a file is the leftmost date of its name: when no date
    starts before it, the ten characters 'dddd-dd-dd' are what is handed to
    [parse]. *)
Theorem get_file_date_leftmost `{E : Externals} :
  forall before date rest : string,
    String.length date = 10 ->
    date_prefix date = true ->
    date_starts_in before (date +:+ rest) = false ->
    get_file_date (before +:+ date +:+ rest) = parse date.
Proof.
  intros before date rest Hlen Hd Hb.
  unfold get_file_date, Re.search.
  rewrite (search_skips_before 0 before (date +:+ rest) Hb).
  destruct (search_date_found (0 + String.length before) date rest Hlen Hd)
    as (m & -> & ->).
  reflexivity.
Qed.

Lemma get_file_date_leftmost_witness :
  @get_file_date Reference.externals "route_2020-04-06_5.31pm_2021-01-01.gpx"
  = Ok (datetime_of_date 2020 4 6).
Proof.
  apply (@get_file_date_leftmost Reference.externals
           "route_" "2020-04-06" "_5.31pm_2021-01-01.gpx"); reflexivity.
Defined.

Lemma filter_gpx_files_sublist `{E : Externals} cutoff gpx_files kept :
  filter_gpx_files cutoff gpx_files = Ok kept -> kept `sublist_of` gpx_files.
Proof.
  revert kept. induction gpx_files as [|f rest IH]; intros kept H.
  - injection H as <-. constructor.
  - cbn [filter_gpx_files] in H.
    destruct (get_file_date f); [|discriminate]. cbn [bind] in H.
    destruct (datetime_ge _ cutoff) as [keep|]; [|discriminate]. cbn [bind] in H.
    destruct (filter_gpx_files cutoff rest) as [kept'|]; [|discriminate].
    cbn [bind] in H. injection H as <-.
    destruct keep; constructor; now apply IH.
Qed.

(** X7. What [get_gpx_files] returns is a selection of the listing in its
    order: every file returned is listed and ends in '.gpx', and the files
    returned keep the order, and the number of times, in which they are
    listed. *)
Theorem get_gpx_files_selects `{E : Externals} :
  forall (listing : list string) (from_date : option datetime) (kept : list string),
    get_gpx_files listing from_date = Ok kept ->
    kept `sublist_of` listing
    /\ Forall (fun f => Str.endswith ".gpx" f = true) kept.
Proof.
  intros listing from_date kept H. unfold get_gpx_files in H.
  assert (Hsub : kept `sublist_of`
                   filter (fun f => Str.endswith ".gpx" f = true) listing).
  { destruct from_date as [from_date|].
    - eapply filter_gpx_files_sublist, H.
    - now injection H as <-. }
  split.
  - etransitivity; [exact Hsub | apply sublist_filter].
  - apply Forall_forall. intros f Hf.
    eapply elem_of_sublist in Hf; [|exact Hsub].
    now apply list_elem_of_filter in Hf as [Hf _].
Qed.

Lemma get_gpx_files_selects_witness :
  ["route.gpx"] `sublist_of` ["old_2019-01-01.gpx"; "route.gpx"; "notes.txt"]
  /\ Forall (fun f => Str.endswith ".gpx" f = true) ["route.gpx"].
Proof.
  apply (@get_gpx_files_selects Reference.externals
           ["old_2019-01-01.gpx"; "route.gpx"; "notes.txt"]
           (Some (datetime_of_date 2020 4 12)) ["route.gpx"]).
  vm_compute. reflexivity.
Defined.

(** X8. [filter_nodes] returns the node it was given or nothing: it never
    returns another node. *)
Theorem filter_nodes_same_node `{E : Externals} :
  forall (node kept : element) (from_date : datetime),
    filter_nodes node from_date = Ok (Some kept) -> kept = node.
Proof.
  intros node kept from_date. unfold filter_nodes, keep_if.
  repeat
    (match goal with
     | |- context [if ?b then _ else _] => destruct b
     | |- context [bind ?r _] => destruct r; cbn [bind]
     end);
    intros H; try discriminate H; now injection H as <-.
Qed.

Lemma filter_nodes_same_node_witness :
  {| tag := "FileReference";
     attrib := {[ "path" := "/workout-routes/route.gpx" ]} |}
  = {| tag := "FileReference";
       attrib := {[ "path" := "/workout-routes/route.gpx" ]} |}.
Proof.
  apply (@filter_nodes_same_node Reference.externals _ _ (datetime_of_date 2020 4 12)).
  vm_compute. reflexivity.
Defined.

(** ** The table builder: sizes and failures *)

Section TableSizes.

Context `{E : Externals}.

(** X9. A table that a call returns from its own pickles has one row for
    each record of its category. *)
Theorem create_dataframe_one_row_per_record :
  ArgsortSpec E ->
  forall (NODES : template) (data : list element) (node_tag : string)
         (nprocs : nat) (tmp : store) (df : frame),
    reads_its_own NODES data node_tag nprocs tmp ->
    (create_dataframe NODES data node_tag nprocs tmp).1 = Ok df ->
    length df = length (filter (fun node => tag node = node_tag) data).
Proof.
  intros spec NODES data node_tag nprocs tmp df Hown Hdf.
  rewrite (table_length spec NODES data node_tag nprocs tmp df Hown Hdf).
  unfold get_nodes. apply length_map.
Qed.

(** X10. With no record of the category there is no table, whatever the
    directory 'tmp' holds: the date column is looked up in an empty frame,
    and [create_dataframe] raises [KeyError] (or what looking up the name of
    the date column raises). *)
Theorem create_dataframe_no_records :
  forall (NODES : template) (data : list element) (node_tag : string)
         (nprocs : nat) (tmp : store),
    (1 <= nprocs)%nat ->
    get_nodes data node_tag = [] ->
    (create_dataframe NODES data node_tag nprocs tmp).1
    = let! col := date_column NODES node_tag in Raise KeyError.
Proof.
  intros NODES data node_tag nprocs tmp Hn Hnone.
  pose proof (create_dataframe_rows NODES node_tag data nprocs tmp Hn) as H.
  rewrite Hnone in H. cbn [map_result] in H. rewrite H. reflexivity.
Qed.

(** X11. When a record of the category is not formatted, its worker writes
    no pickle; with no pickle of the category left in 'tmp' by an earlier
    call, [create_dataframe] raises [FileNotFoundError], whatever the record
    raised and however many workers there are. *)
Theorem create_dataframe_failed_record :
  forall (NODES : template) (data : list element) (node_tag : string) (nprocs : nat)
         (tmp : store) (attributes : gmap string string) (e : exn),
    (1 <= nprocs)%nat ->
    no_leftover node_tag nprocs tmp ->
    attributes ∈ get_nodes data node_tag ->
    format_values NODES node_tag attributes = Raise e ->
    (create_dataframe NODES data node_tag nprocs tmp).1 = Raise FileNotFoundError.
Proof.
  intros NODES data node_tag nprocs tmp attributes e Hn Hfresh Hin He.
  pose proof (create_dataframe_rows NODES node_tag data nprocs tmp Hn) as H.
  destruct (map_result_raises _ _ _ _ Hin He) as [e' He'].
  rewrite He' in H. now apply H.
Qed.

End TableSizes.

(** ** Counting the nodes *)

Lemma get_nodes_cons node data t :
  length (get_nodes (node :: data) t)
  = ((if String.eqb (tag node) t then 1 else 0) + length (get_nodes data t))%nat.
Proof.
  unfold get_nodes. rewrite filter_cons.
  destruct (decide (tag node = t)) as [Heq | Hne].
  - apply String.eqb_eq in Heq as ->. reflexivity.
  - apply String.eqb_neq in Hne as ->. reflexivity.
Qed.

Lemma listed_cons node data tags :
  length (filter (fun node => list_in (tag node) tags = true) (node :: data))
  = ((if list_in (tag node) tags then 1 else 0)
     + length (filter (fun node => list_in (tag node) tags = true) data))%nat.
Proof.
  rewrite filter_cons.
  destruct (decide (list_in (tag node) tags = true)) as [-> | Hne]; [reflexivity|].
  apply not_true_is_false in Hne as ->. reflexivity.
Qed.

Lemma list_in_count t tags :
  NoDup tags ->
  (if list_in t tags then 1 else 0)%nat
  = sum_list (map (fun u => if String.eqb t u then 1 else 0)%nat tags).
Proof.
  induction 1 as [|u tags Hu _ IH]; [reflexivity|].
  unfold list_in in *. cbn [existsb map sum_list sum_list_with id] in *.
  destruct (String.eqb t u) eqn:Htu; cbn [orb].
  - apply String.eqb_eq in Htu as ->.
    replace (existsb (String.eqb u) tags) with false in IH;
      [now rewrite <- IH|].
    symmetry. apply not_true_is_false. intros Hin.
    apply existsb_exists in Hin as (v & Hv & Heq).
    apply String.eqb_eq in Heq as <-. apply Hu, list_elem_of_In, Hv.
  - exact IH.
Qed.

Lemma listed_count data tags :
  NoDup tags ->
  length (filter (fun node => list_in (tag node) tags = true) data)
  = sum_list (map (fun t => length (get_nodes data t)) tags).
Proof.
  intros Hnd. induction data as [|node data IH].
  - cbn. induction tags as [|t tags IHt]; [reflexivity|].
    cbn. apply IHt. now apply NoDup_cons in Hnd as [_ ?].
  - rewrite listed_cons, IH, (list_in_count _ _ Hnd). clear IH Hnd.
    induction tags as [|t tags IHt]; [reflexivity|].
    cbn [map sum_list sum_list_with]. rewrite get_nodes_cons, <- IHt.
    unfold id. generalize (length (get_nodes data t)).
    generalize (sum_list (map (fun u => if String.eqb (tag node) u then 1 else 0)%nat tags)).
    generalize (sum_list (map (fun t0 => length (get_nodes data t0)) tags)).
    destruct (String.eqb (tag node) t); intros; lia.
Qed.

(** X12. [get_nodes] with a list of distinct tags returns as many nodes as
    it returns for the tags one by one; with a list of one tag it returns
    what it returns for the tag. *)
Theorem get_nodes_in_counts :
  forall (data : list element) (tags : list string),
    NoDup tags ->
    length (get_nodes_in data tags)
    = sum_list (map (fun t => length (get_nodes data t)) tags)
    /\ forall t, get_nodes_in data [t] = get_nodes data t.
Proof.
  intros data tags Hnd. split.
  - unfold get_nodes_in. rewrite length_map. apply listed_count, Hnd.
  - intros t. unfold get_nodes_in, get_nodes. f_equal.
    induction data as [|node data IH]; [reflexivity|].
    rewrite !filter_cons, IH. cbn [list_in existsb]. rewrite orb_false_r.
    destruct (decide (String.eqb (tag node) t = true)) as [Heq | Hne];
      destruct (decide (tag node = t)) as [Heq' | Hne']; try reflexivity.
    + now apply String.eqb_eq in Heq.
    + now apply String.eqb_eq in Heq'.
Qed.

Lemma used_tags_distinct : NoDup used_tags.
Proof. apply (bool_decide_unpack _). vm_compute. reflexivity. Qed.

(** X13. Once the three tables are returned by calls that read their own
    pickles, what [report_stats] says depends on the Me and ExportDate
    nodes alone: the extraction is reported complete exactly when there are
    two of them, and otherwise their number less two is reported as records
    not extracted. *)
Theorem report_stats_counts_metadata `{E : Externals} :
  ArgsortSpec E ->
  forall (NODES : template) (data : list element) (n1 n2 n3 : nat)
         (tmp1 tmp2 tmp3 : store) (workouts records activities : frame),
    reads_its_own NODES data "ActivitySummary" n1 tmp1 ->
    reads_its_own NODES data "Workout" n2 tmp2 ->
    reads_its_own NODES data "Record" n3 tmp3 ->
    (create_dataframe NODES data "ActivitySummary" n1 tmp1).1 = Ok activities ->
    (create_dataframe NODES data "Workout" n2 tmp2).1 = Ok workouts ->
    (create_dataframe NODES data "Record" n3 tmp3).1 = Ok records ->
    let metadata := (length (get_nodes data "Me")
                     + length (get_nodes data "ExportDate"))%nat in
    report_stats data workouts records activities
    = if (metadata =? 2)%nat then ExtractionCompleted
      else NotExtracted (Z.of_nat metadata - 2).
Proof.
  intros spec NODES data n1 n2 n3 tmp1 tmp2 tmp3 workouts records activities
    Oa Ow Or Ha Hw Hr metadata.
  unfold report_stats. cbv zeta.
  rewrite (listed_count data used_tags used_tags_distinct).
  rewrite (table_length spec _ _ _ _ _ _ Oa Ha), (table_length spec _ _ _ _ _ _ Ow Hw),
          (table_length spec _ _ _ _ _ _ Or Hr).
  unfold used_tags. cbn [map sum_list sum_list_with]. unfold id. subst metadata.
  unfold get_nodes. rewrite !length_map.
  generalize (length (filter (fun node => tag node = "Record") data)).
  generalize (length (filter (fun node => tag node = "Workout") data)).
  generalize (length (filter (fun node => tag node = "ActivitySummary") data)).
  generalize (length (filter (fun node => tag node = "Me") data)).
  generalize (length (filter (fun node => tag node = "ExportDate") data)).
  intros e m a w r.
  destruct (Nat.eqb_spec (w + r + a + 2) (r + (w + (a + (m + (e + 0))))));
    destruct (Nat.eqb_spec (m + e) 2); try reflexivity; try lia.
  f_equal. lia.
Qed.

(** ** The further properties at the sample data *)

Lemma row_of_built (E : Externals) NODES node_tag attributes :
  match @format_values E NODES node_tag attributes with
  | Ok _ => true
  | Raise _ => false
  end = true ->
  @format_values E NODES node_tag attributes
  = Ok (row_of E NODES node_tag attributes).
Proof.
  unfold row_of.
  destruct (@format_values E NODES node_tag attributes); [reflexivity | discriminate].
Qed.

Lemma format_values_keeps_keys_witness :
  exists values1,
    @format_values Reference.externals
      (<["Workout" :=
           {| pattern := Some workout_pattern;
              formats := [("type", Names ["workoutActivityType"]);
                          ("string", Names ["sourceName"])] |}]> sample_template)
      "Workout" yoga = Ok values1
    /\ forall k, is_Some (values1 !! k)
        -> is_Some (row_of Reference.externals sample_template "Workout" yoga !! k).
Proof.
  apply (@format_values_keeps_keys Reference.externals sample_template "Workout"
           {| pattern := Some workout_pattern;
              formats :=
                [("type", Names ["workoutActivityType"]);
                 ("string", Names ["sourceName"]);
                 ("no_format", Names ["sourceVersion"]);
                 ("device", Names ["device"]);
                 ("date", Names ["creationDate"; "startDate"; "endDate"]);
                 ("standard", Pairs [("duration", "durationUnit");
                                     ("totalDistance", "totalDistanceUnit");
                                     ("totalEnergyBurned", "totalEnergyBurnedUnit")])] |}
           yoga
           [("type", Names ["workoutActivityType"]); ("string", Names ["sourceName"])]
           [("no_format", Names ["sourceVersion"]);
            ("device", Names ["device"]);
            ("date", Names ["creationDate"; "startDate"; "endDate"]);
            ("standard", Pairs [("duration", "durationUnit");
                                ("totalDistance", "totalDistanceUnit");
                                ("totalEnergyBurned", "totalEnergyBurnedUnit")])]).
  - vm_compute. reflexivity.
  - reflexivity.
  - apply row_of_built. vm_compute. reflexivity.
Defined.

Lemma absent_device_group_witness :
  @format_values Reference.externals sample_template "Record" step_count
  = @format_values Reference.externals
      (<["Record" :=
           {| pattern := Some record_pattern;
              formats :=
                [("type", Names ["type"]);
                 ("string", Names ["sourceName"]);
                 ("no_format", Names ["sourceVersion"; "unit"; "value"]);
                 ("date", Names ["creationDate"; "startDate"; "endDate"])] |}]>
         sample_template)
      "Record" step_count.
Proof.
  refine (proj2 (@absent_device_group Reference.externals sample_template "Record"
                   {| pattern := Some record_pattern;
                      formats :=
                        [("type", Names ["type"]);
                         ("string", Names ["sourceName"]);
                         ("no_format", Names ["sourceVersion"; "unit"; "value"]);
                         ("device", Names ["device"]);
                         ("date", Names ["creationDate"; "startDate"; "endDate"])] |}
                   step_count
                   [("type", Names ["type"]);
                    ("string", Names ["sourceName"]);
                    ("no_format", Names ["sourceVersion"; "unit"; "value"])]
                   ["device"]
                   [("date", Names ["creationDate"; "startDate"; "endDate"])]
                   _ _ _) _).
  - vm_compute. reflexivity.
  - reflexivity.
  - repeat constructor.
  - discriminate.
Defined.

Lemma present_attributes_keep_their_names_witness :
  row_of Reference.externals
    {[ "Record" := {| pattern := Some record_pattern;
                      formats := [("type", Names ["type"]);
                                  ("no_format", Names ["sourceVersion"; "unit"; "value"])] |} ]}
    "Record" (attrib (step_count_at "2020-04-06 14:03:33 +0200" "12"))
  !! underscore "sourceVersion"
  = Some (VStr "6.1.3").
Proof.
  refine (@present_attributes_keep_their_names Reference.externals
            {[ "Record" := {| pattern := Some record_pattern;
                              formats := [("type", Names ["type"]);
                                          ("no_format", Names ["sourceVersion"; "unit"; "value"])] |} ]}
            "Record"
            {| pattern := Some record_pattern;
               formats := [("type", Names ["type"]);
                           ("no_format", Names ["sourceVersion"; "unit"; "value"])] |}
            (attrib (step_count_at "2020-04-06 14:03:33 +0200" "12"))
            [("type", Names ["type"])] "no_format" ["sourceVersion"; "unit"; "value"]
            _ _ _ _ _ _ _ "sourceVersion" "6.1.3" _ _).
  - vm_compute. reflexivity.
  - reflexivity.
  - left. reflexivity.
  - repeat constructor; vm_compute; eexists; reflexivity.
  - apply (bool_decide_unpack _). vm_compute. reflexivity.
  - apply row_of_built. vm_compute. reflexivity.
  - apply list_elem_of_here.
  - vm_compute. reflexivity.
Defined.

Lemma format_standard_names_witness :
  In "energy_burned_kcal"
     ["duration_min"; "distance_km"; "distance_kcal";
      "energy_burned_km"; "energy_burned_kcal"].
Proof.
  apply (@format_standard_names Reference.externals
           ("totalEnergyBurned", Text "2500", "cal") "energy_burned_kcal" 2.5%float).
  vm_compute. reflexivity.
Defined.

Lemma create_dataframe_one_row_per_record_witness :
  length (table_for Reference.externals sample_data "Record" 2 ∅)
  = length (filter (fun node => tag node = "Record") sample_data).
Proof.
  apply (@create_dataframe_one_row_per_record Reference.externals
           reference_argsort_spec sample_template sample_data "Record" 2 ∅).
  - apply reads_its_own_empty.
  - exact sample_table_built.
Defined.

Lemma create_dataframe_no_records_witness :
  (@create_dataframe Reference.externals sample_template sample_data
     "ActivitySummary" 4 left_behind).1
  = Raise KeyError.
Proof.
  refine (@create_dataframe_no_records Reference.externals sample_template
            sample_data "ActivitySummary" 4 left_behind _ _).
  - lia.
  - vm_compute. reflexivity.
Defined.

Lemma create_dataframe_failed_record_witness :
  (@create_dataframe Reference.externals sample_template later_export
     "Workout" 2 ∅).1
  = Raise FileNotFoundError.
Proof.
  apply (@create_dataframe_failed_record Reference.externals sample_template
           later_export "Workout" 2 ∅ (without ["totalDistance"] yoga) KeyError).
  - lia.
  - apply no_leftover_empty.
  - unfold get_nodes, later_export. apply list_elem_of_fmap.
    exists unformatted. split; [reflexivity|].
    apply list_elem_of_filter. split; [reflexivity|].
    apply list_elem_of_further, list_elem_of_here.
  - vm_compute. reflexivity.
Defined.

Lemma get_nodes_in_counts_witness :
  length (get_nodes_in sample_data ["Workout"; "Record"]) = 4%nat.
Proof.
  refine (proj1 (get_nodes_in_counts sample_data ["Workout"; "Record"] _)).
  apply (bool_decide_unpack _). vm_compute. reflexivity.
Defined.

Lemma report_stats_counts_metadata_witness :
  report_stats export_data
    (table_for Reference.externals export_data "Workout" 4 ∅)
    (table_for Reference.externals export_data "Record" 4 ∅)
    (table_for Reference.externals export_data "ActivitySummary" 4 ∅)
  = ExtractionCompleted.
Proof.
  refine (@report_stats_counts_metadata Reference.externals reference_argsort_spec
            sample_template export_data 4 4 4 ∅ ∅ ∅ _ _ _ _ _ _ _ _ _);
    try apply reads_its_own_empty;
    apply table_for_built; vm_compute; reflexivity.
Defined.
